(** * pymc4: the model engine ([pymc4/_model.py]) and the recipe it uses
    to turn code into source and back ([pymc4/ast_compiler.py]).

    The Python objects the two modules manipulate are embedded as follows.
    - Code objects are records with the [co_*] fields the source reads.
    - Syntax trees are rose trees of nodes carrying the node class, the
      optional [lineno] attribute and the [body] list.
    - Functions, capture contexts, dictionaries and models are mutable
      objects: they live in a store and are referred to by location, so that
      two references to one object see each other's updates.
    - Exceptions are values of [Exn]; a computation is a state transformer
      returning either an exception or a result.
    - What the interpreter, the syntax-tree tools and the numerical backend
      provide ([compile], [inspect.getsourcelines], the auto-name visitor,
      calling a function, tensor sums) are the interfaces [PyInterp],
      [AstTools], [Interp] and [Backend]. *)

From Stdlib Require Import ZArith Ascii String List Bool Lia.
From stdpp Require Import base option list gmap strings.

Set Warnings "-register-all".
Local Open Scope Z_scope.

(** ** Exceptions *)

(** [Error], [Unsupported] and [NoSource] are the classes of
    [ast_compiler.py]; [Unsupported] and [NoSource] derive from [Error].
    [ContextMismatch] is the error of the capture contexts; the others are
    the built-in exceptions the embedded code can meet. [IOError] stands
    for [IOError] (on Python 3 a name of [OSError]) and its subclasses;
    [PyException] for any other class, by name. *)
Inductive Exn : Type :=
  | Error (msg : string)
  | Unsupported (msg : string)
  | NoSource (msg : string)
  | IOError (msg : string)
  | IndentationError (msg : string)
  | TabError (msg : string)
  | SyntaxError (msg : string)
  | IndexError
  | AttributeError (attr : string)
  | ContextMismatch
  | PyException (cls : string).

(** [except IndentationError] also catches its subclass [TabError]. *)
Definition is_IndentationError (e : Exn) : bool :=
  match e with
  | IndentationError _ | TabError _ => true
  | _ => false
  end.

(** What [except IOError] catches. *)
Definition is_IOError (e : Exn) : bool :=
  match e with
  | IOError _ => true
  | _ => false
  end.

(** [isinstance(e, Error)] for the hierarchy of [ast_compiler.py]. *)
Definition is_Error (e : Exn) : bool :=
  match e with
  | Error _ | Unsupported _ | NoSource _ => true
  | _ => false
  end.

Definition res (A : Type) : Type := (Exn + A)%type.

#[export] Instance res_ret : MRet res := fun A x => inr x.
#[export] Instance res_bind : MBind res := fun A B k m =>
  match m with
  | inl e => inl e
  | inr x => k x
  end.

Definition raise {A : Type} (e : Exn) : res A := inl e.

(** ** Code objects *)

(** An entry of [co_consts]: a nested code object or any other constant. *)
Inductive const_of (C : Type) : Type :=
  | ConstCode (c : C)
  | ConstObject (repr : string).
Arguments ConstCode {C} c.
Arguments ConstObject {C} repr.

Inductive code : Type := Code {
  co_argcount : Z;
  co_nlocals : Z;
  co_stacksize : Z;
  co_flags : Z;
  co_code : list Z;
  co_consts : list (const_of code);
  co_names : list string;
  co_varnames : list string;
  co_filename : string;
  co_name : string;
  co_firstlineno : Z;
  co_lnotab : list Z;
  co_freevars : list string;
  co_cellvars : list string }.

Abbreviation const := (const_of code).

(** [inspect.CO_NESTED] and [ast.PyCF_ONLY_AST]. *)
Definition CO_NESTED : Z := 16.
Definition PyCF_ONLY_AST : Z := 1024.

(** ** Syntax trees *)

Inductive node_class : Type :=
  | Module
  | FunctionDef (name : string)
  | With
  | Compound          (* any other statement with a [body] attribute *)
  | Simple.           (* any node without a [body] attribute *)

Inductive node : Type := Node {
  n_class : node_class;
  n_lineno : option Z;
  n_body : list node;
  n_fields : list node }.

Definition has_body (k : node_class) : bool :=
  match k with
  | Simple => false
  | _ => true
  end.

Definition isinstance_FunctionDef (n : node) : bool :=
  match n_class n with
  | FunctionDef _ => true
  | _ => false
  end.

(** [node.name] of a function definition *)
Definition n_name (n : node) : string :=
  match n_class n with
  | FunctionDef name => name
  | _ => EmptyString
  end.

(** [a.body]: the attribute exists only on node classes that have one. *)
Definition get_body (n : node) : res (list node) :=
  if has_body (n_class n) then mret (n_body n)
  else raise (AttributeError "body").

(** [a.body[0]] *)
Definition get_body_0 (n : node) : res node :=
  b ← get_body n;
  match b with
  | [] => raise IndexError
  | n0 :: _ => mret n0
  end.

Definition set_body (n : node) (b : list node) : node :=
  {| n_class := n_class n; n_lineno := n_lineno n;
     n_body := b; n_fields := n_fields n |}.

(** [ast.increment_lineno(a, n)]: every node of the tree that has a line
    number gets it increased by [n]; [n_lineno = None] stands for a node
    class without the attribute ([Module], operators, ...). *)
Fixpoint increment_lineno (a : node) (n : Z) : node :=
  {| n_class := n_class a;
     n_lineno := Z.add n <$> n_lineno a;
     n_body := map (fun c => increment_lineno c n) (n_body a);
     n_fields := map (fun c => increment_lineno c n) (n_fields a) |}.

(** All line numbers of a tree, node before children ([ast.walk] visits
    every node once). *)
Fixpoint linenos (a : node) : list Z :=
  match n_lineno a with Some l => [l] | None => [] end
  ++ flat_map linenos (n_body a) ++ flat_map linenos (n_fields a).

(** ** Strings and the two regular expressions *)

Definition newline : ascii := ascii_of_nat 10.
Definition underscore : ascii := "_"%char.

Definition chars (s : string) : list ascii := list_ascii_of_string s.

Definition is_alpha (c : ascii) : bool :=
  let n := nat_of_ascii c in
  ((65 <=? n)%nat && (n <=? 90)%nat) || ((97 <=? n)%nat && (n <=? 122)%nat).

Definition is_digit (c : ascii) : bool :=
  let n := nat_of_ascii c in (48 <=? n)%nat && (n <=? 57)%nat.

(** The class [[A-Za-z0-9_]]. *)
Definition is_word (c : ascii) : bool :=
  is_alpha c || is_digit c || Ascii.eqb c underscore.

(** [.] matches any character but a newline. *)
Definition is_dot (c : ascii) : bool := negb (Ascii.eqb c newline).

Definition ascii_list_eqb (a b : list ascii) : bool :=
  bool_decide (a = b).

(** [$] at position [p] of [l] (no MULTILINE flag): the end of the string,
    or just before a newline that ends the string. *)
Definition dollar_at (p : nat) (l : list ascii) : bool :=
  (p =? length l)%nat
  || ((S p =? length l)%nat && ascii_list_eqb (drop p l) [newline]).

(** [(?<!__)] at position [p]: the two characters before [p] are not two
    underscores. *)
Definition not_after_dunder (p : nat) (l : list ascii) : bool :=
  negb ((2 <=? p)%nat
        && ascii_list_eqb (take 2 (drop (p - 2) l)) [underscore; underscore]).

(** [re.compile('^__.*(?<!__)$').match]: the text starts with two
    underscores, [.*] takes some [k] characters (none of them a newline),
    and at the position reached the look-behind and [$] both hold. A match
    exists when some [k] works. *)
Definition isprivate (name : string) : bool :=
  let l := chars name in
  ascii_list_eqb (take 2 l) [underscore; underscore]
  && existsb (fun k => forallb is_dot (take k (drop 2 l))
                       && not_after_dunder (2 + k) l
                       && dollar_at (2 + k) l)
             (seq 0 (S (length l - 2))).

(** [.*$] on a remainder [r]. *)
Definition dot_star_dollar (r : list ascii) : bool :=
  existsb (fun k => forallb is_dot (take k r) && dollar_at k r)
          (seq 0 (S (length r))).

(** The pattern of [uncompile]: group 1 is an underscore, a letter and any
    number of word characters; two underscores and [.*$] follow. Whether
    group 1 can end at position [k]: *)
Definition prefix_group_at (l : list ascii) (k : nat) : bool :=
  match l with
  | u :: a :: _ =>
      Ascii.eqb u underscore && is_alpha a && (2 <=? k)%nat
      && forallb is_word (take (k - 2) (drop 2 l))
      && ascii_list_eqb (take 2 (drop k l)) [underscore; underscore]
      && dot_star_dollar (drop (k + 2) l)
  | _ => false
  end.

(** [re.match] of that pattern on [name], and [m.group(1)]: the star of the
    group is greedy, so the group is the longest one for which the rest of
    the pattern matches. *)
Definition match_private_prefix (name : string) : option string :=
  let l := chars name in
  (fun k => string_of_list_ascii (take k l))
    <$> find (prefix_group_at l) (rev (seq 0 (S (length l)))).

(** The loop of [uncompile] over [c.co_names]: the first name that
    matches decides. *)
Fixpoint find_privateprefix (names : list string) : option string :=
  match names with
  | [] => None
  | name :: rest =>
      match match_private_prefix name with
      | Some p => Some p
      | None => find_privateprefix rest
      end
  end.

(** The form of group 1 of the pattern of [uncompile]: an underscore, a
    letter and word characters. *)
Definition prefix_shape (p : list ascii) : Prop :=
  exists a body,
    p = underscore :: a :: body /\ is_alpha a = true
    /\ forallb is_word body = true.

(** ** What the interpreter provides to [ast_compiler.py] *)

(** A positional argument of the call of the [code] constructor: an
    integer, a byte string, a tuple of constants, a tuple of names or a
    string. *)
Inductive pyarg : Type :=
  | ArgInt (z : Z)
  | ArgBytes (b : list Z)
  | ArgConsts (l : list const)
  | ArgNames (l : list string)
  | ArgStr (s : string).

Class PyInterp : Type := {
  (** the sum of the [CO_FUTURE_*] constants of [__future__] *)
  PyCF_MASK : Z;
  (** [inspect.getsourcelines(c)]: the lines and the first line number, or
      the exception it raises ([IOError] when the source cannot be
      retrieved, or another one, such as a tokenizer error) *)
  getsourcelines : code -> res (list string * Z);
  (** the constructor [code] ([types.CodeType]) on positional arguments
      that have an integer in fifth place; see [CodeType] *)
  code_new : list pyarg -> res code;
  (** [compile(text, filename, mode, flags, dont_inherit)] with
      [PyCF_ONLY_AST] among the flags: the parser *)
  compile_source : string -> string -> string -> Z -> bool -> res node;
  (** [compile(tree, filename, mode, flags, dont_inherit)]: the compiler *)
  compile_ast : node -> string -> string -> Z -> bool -> res code
}.

(** The first argument of [recompile]: source text or a parsed tree. *)
Inductive source : Type :=
  | SrcText (s : string)
  | SrcAST (a : node).

(** The six-element list [uncompile] returns and [recompile] takes. *)
Record uncompiled : Type := Uncompiled {
  u_source : source;
  u_filename : string;
  u_mode : string;
  u_flags : Z;
  u_firstlineno : Z;
  u_privateprefix : option string }.

Definition str_newline : string := String newline EmptyString.
Definition prefix_plain : string := str_newline.
Definition prefix_with : string := "with 0:" +:+ str_newline.

(** [inspect.getfile] of a code object is its [co_filename]. *)
Definition getfile (c : code) : string := co_filename c.

Section ast_compiler.
Context `{PyInterp}.

Definition uncompile (c : code) : res uncompiled :=
  if negb (Z.land (co_flags c) CO_NESTED =? 0)
     || negb (bool_decide (co_freevars c = []))
  then raise (Unsupported "nested functions not supported")
  else if String.eqb (co_name c) "<lambda>"
  then raise (Unsupported "lambda functions not supported")
  else if String.eqb (co_filename c) "<string>"
  then raise (Unsupported "code without source file not supported")
  else
    let filename := getfile c in
    match getsourcelines c with
    | inl e =>
        if is_IOError e then raise (NoSource "source code not available")
        else raise e
    | inr (lines, firstlineno) =>
        let source := String.concat EmptyString lines in
        let privateprefix := find_privateprefix (co_names c) in
        mret {| u_source := SrcText source;
               u_filename := filename;
               u_mode := "exec";
               u_flags := Z.land (co_flags c) PyCF_MASK;
               u_firstlineno := firstlineno;
               u_privateprefix := privateprefix |}
    end.

(** The [except IndentationError] branch of [parse_snippet]: parse again
    under a dummy [with], then [a.body = a.body[0].body]. *)
Definition parse_wrapped (source filename mode : string) (flags : Z)
    : res node :=
  a ← compile_source (prefix_with +:+ source) filename mode
                     (Z.lor flags PyCF_ONLY_AST) true;
  w ← get_body_0 a;
  b ← get_body w;
  mret (set_body a b).

Definition parse_snippet (source filename mode : string) (flags : Z)
    (firstlineno : Z) : res node :=
  a ← match compile_source (prefix_plain +:+ source) filename mode
                           (Z.lor flags PyCF_ONLY_AST) true with
      | inr a => mret a
      | inl e =>
          if is_IndentationError e
          then parse_wrapped source filename mode flags
          else raise e
      end;
  mret (increment_lineno a (firstlineno - 2)).

(** The [for ... else] of [recompile] over [c0.co_consts]. *)
Fixpoint find_body_code (name : string) (lineno : option Z)
    (consts : list const) : res code :=
  match consts with
  | [] => raise (Error "Function body code not found")
  | ConstObject _ :: rest => find_body_code name lineno rest
  | ConstCode c :: rest =>
      if String.eqb (co_name c) name
      then match lineno with
           | None => raise (AttributeError "lineno")
           | Some l =>
               if co_firstlineno c =? l then mret c
               else find_body_code name lineno rest
           end
      else find_body_code name lineno rest
  end.

Definition fixnames (privateprefix : string) (names : list string)
    : list string :=
  map (fun name => if isprivate name then privateprefix +:+ name else name)
      names.

(** The fourteen positional arguments [recompile] passes to the [code]
    constructor, in the order it passes them. *)
Definition code_args (privateprefix : string) (c : code) : list pyarg :=
  [ArgInt (co_argcount c); ArgInt (co_nlocals c); ArgInt (co_stacksize c);
   ArgInt (co_flags c); ArgBytes (co_code c); ArgConsts (co_consts c);
   ArgNames (fixnames privateprefix (co_names c));
   ArgNames (fixnames privateprefix (co_varnames c));
   ArgStr (co_filename c); ArgStr (co_name c); ArgInt (co_firstlineno c);
   ArgBytes (co_lnotab c); ArgNames (co_freevars c);
   ArgNames (co_cellvars c)].

(** The call [code(...)] on Python 3, which the repository runs on. In
    every version of Python 3 the fifth positional parameter of the
    constructor is an integer ([flags] up to 3.7, [stacksize] from 3.8
    on; from 3.11 on more arguments are required as well): a call with
    fewer than five arguments, or with anything but an integer in fifth
    place, raises [TypeError]. What a call that passes this test does is
    the interpreter's ([code_new]). *)
Definition CodeType (args : list pyarg) : res code :=
  match args !! 4%nat with
  | Some (ArgInt _) => code_new args
  | _ => raise (PyException "TypeError")
  end.

(** The tree [recompile] works on: [source] itself when it is a tree
    already, its parse otherwise. *)
Definition source_tree (src : source) (filename mode : string) (flags : Z)
    (firstlineno : Z) : res node :=
  match src with
  | SrcAST a => mret a
  | SrcText s => parse_snippet s filename mode flags firstlineno
  end.

Definition recompile (src : source) (filename mode : string) (flags : Z)
    (firstlineno : Z) (privateprefix : option string) : res code :=
  a ← source_tree src filename mode flags firstlineno;
  node ← get_body_0 a;
  if negb (isinstance_FunctionDef node)
  then raise (Error "Expecting function AST node")
  else
    c0 ← compile_ast a filename mode flags true;
    c ← find_body_code (n_name node) (n_lineno node) (co_consts c0);
    match privateprefix with
    | Some p => CodeType (code_args p c)
    | None => mret c
    end.

(** [recompile( *unc)] *)
Definition recompile_unc (u : uncompiled) : res code :=
  recompile (u_source u) (u_filename u) (u_mode u) (u_flags u)
            (u_firstlineno u) (u_privateprefix u).
End ast_compiler.

(** ** The model engine: objects and store *)

(** What the numerical backend provides. [Value] is any Python value the
    engine passes around without looking inside: call arguments, observed
    data, tensors. *)
Class Backend : Type := {
  Value : Type;
  (** [tf.reduce_sum] *)
  tf_reduce_sum : Value -> Value;
  (** [+] as the built-in [sum] applies it, and the [0] it starts from *)
  py_add : Value -> Value -> Value;
  py_zero : Value
}.

(** What the syntax-tree tools outside [ast_compiler.py] provide:
    [AutoNameTransformer().visit(tree)] of
    [random_variables/random_variable.py] and
    [ast.fix_missing_locations(tree)], both working on the tree in place
    (the result is the tree after the call). *)
Class AstTools : Type := {
  AutoNameTransformer_visit : node -> res node;
  fix_missing_locations : node -> node
}.

(** Locations of objects in the store. *)
Abbreviation loc := nat.

(** [ModelTemplate]: [self._func] refers to the function object. *)
Record ModelTemplate : Type := { _func : loc }.

Section objects.
Context `{Backend}.

(** Modelled from the spec: the random variable of the backend, which
    exposes a name ([var.name]), a realized value ([var.as_tensor()]) and a
    log-probability ([var.log_prob()]). *)
Record RandomVariable : Type := {
  name : string;
  as_tensor : Value;
  log_prob : Value }.

(** A Python object where the code does not fix its class. *)
Inductive pyobj : Type :=
  | PyValue (v : Value)
  | PyStr (s : string)
  | PyRandomVariable (var : RandomVariable).

(** Modelled from the spec: the capture contexts of
    [_template_contexts.py]. Both hold [vars], the variables captured so
    far in construction order; the inference context also holds the
    values provided to it and the variables it expects. *)
Inductive Context : Type :=
  | ForwardContext (vars : list RandomVariable)
  | InferenceContext (vars : list RandomVariable)
                     (provided_values : list Value)
                     (expected_vars : list pyobj).

Definition vars (c : Context) : list RandomVariable :=
  match c with
  | ForwardContext vs => vs
  | InferenceContext vs _ _ => vs
  end.

(** [Model]: the attributes set by [__init__]. The forward context and
    the observation dictionary are objects of the store. *)
Record Model : Type := {
  _template : ModelTemplate;
  _template_args : list Value * gmap string Value;
  _forward_context : loc;
  _observations : loc }.

(** The part of the store a template function works on when it runs:
    the context objects and the stack of active contexts (top first). *)
Record Ambient : Type := {
  contexts : list Context;
  stack : list loc }.

(** One call of a template function: its code, its arguments and the
    context stack at the time of the call. *)
Record Call : Type := {
  call_code : code;
  call_args : list Value;
  call_kwargs : gmap string Value;
  call_stack : list loc }.

(** The store. [functions] holds the [__code__] of each function object;
    [calls] logs the calls of template functions, oldest first. *)
Record World : Type := {
  functions : list code;
  ambient : Ambient;
  dicts : list (gmap string Value);
  models : list Model;
  calls : list Call }.

Definition set_functions (f : list code) (w : World) : World :=
  {| functions := f; ambient := ambient w; dicts := dicts w;
     models := models w; calls := calls w |}.
Definition set_ambient (a : Ambient) (w : World) : World :=
  {| functions := functions w; ambient := a; dicts := dicts w;
     models := models w; calls := calls w |}.
Definition set_dicts (d : list (gmap string Value)) (w : World) : World :=
  {| functions := functions w; ambient := ambient w; dicts := d;
     models := models w; calls := calls w |}.
Definition set_models (m : list Model) (w : World) : World :=
  {| functions := functions w; ambient := ambient w; dicts := dicts w;
     models := m; calls := calls w |}.
Definition set_calls (c : list Call) (w : World) : World :=
  {| functions := functions w; ambient := ambient w; dicts := dicts w;
     models := models w; calls := c |}.
Definition set_contexts (c : list Context) (a : Ambient) : Ambient :=
  {| contexts := c; stack := stack a |}.
Definition set_stack (s : list loc) (a : Ambient) : Ambient :=
  {| contexts := contexts a; stack := s |}.

(** Computations on the store that may raise. *)
Definition M (A : Type) : Type := World -> res A * World.

#[global] Instance M_ret : MRet M := fun A x w => (inr x, w).
#[global] Instance M_bind : MBind M := fun A B k m w =>
  match m w with
  | (inl e, w') => (inl e, w')
  | (inr x, w') => k x w'
  end.

Definition lift {A : Type} (r : res A) : M A := fun w => (r, w).

(** Dereferencing: every reference of a running program is live, so a
    miss means the store is not one of a running program. *)
Definition deref {A : Type} (l : option A) : M A :=
  match l with
  | Some x => mret x
  | None => lift (raise (PyException "SystemError"))
  end.

Definition get_function (f : loc) : M code :=
  fun w => deref (functions w !! f) w.
Definition get_context (c : loc) : M Context :=
  fun w => deref (contexts (ambient w) !! c) w.
Definition get_model (m : loc) : M Model :=
  fun w => deref (models w !! m) w.
Definition get_dict (d : loc) : M (gmap string Value) :=
  fun w => deref (dicts w !! d) w.

(** [func.__code__ = c] *)
Definition set_function (f : loc) (c : code) : M unit :=
  fun w => (inr tt, set_functions (<[f := c]> (functions w)) w).

Definition set_dict (d : loc) (v : gmap string Value) : M unit :=
  fun w => (inr tt, set_dicts (<[d := v]> (dicts w)) w).

Definition new_context (c : Context) : M loc :=
  fun w => (inr (length (contexts (ambient w))),
            set_ambient (set_contexts (contexts (ambient w) ++ [c])
                                      (ambient w)) w).
Definition new_dict (d : gmap string Value) : M loc :=
  fun w => (inr (length (dicts w)), set_dicts (dicts w ++ [d]) w).
Definition new_model (m : Model) : M loc :=
  fun w => (inr (length (models w)), set_models (models w ++ [m]) w).
End objects.

(** What the interpreter provides to the engine: calling a function object
    with code [c] on positional and keyword arguments. A template function
    reaches the engine through the capture contexts only (every random
    variable it constructs registers with the active context), so the call
    is a transformer of [Ambient]; it may raise. *)
Class Interp `{Backend} : Type := {
  call_function :
    code -> list Value -> gmap string Value -> Ambient -> res unit * Ambient
}.

Section model.
Context `{Backend} `{!Interp} `{PyInterp} `{AstTools}.

(** *** Capture contexts *)

(** Modelled from the spec: [ForwardContext()] starts with no captured
    variable. *)
Definition ForwardContext_new : M loc := new_context (ForwardContext []).

(** Modelled from the spec: [InferenceContext(values, expected_vars=...)]
    validates at construction that as many values are provided as
    variables are expected, and fails with [ContextMismatch] otherwise. *)
Definition InferenceContext_new (provided_values : list Value)
    (expected_vars : list pyobj) : M loc :=
  if bool_decide (length provided_values = length expected_vars)
  then new_context (InferenceContext [] provided_values expected_vars)
  else lift (raise ContextMismatch).

(** Modelled from the spec: entering a context pushes it on the stack and
    yields it; leaving pops the stack. *)
Definition enter (c : loc) : M loc :=
  fun w => (inr c, set_ambient (set_stack (c :: stack (ambient w))
                                          (ambient w)) w).
Definition exit_ (w : World) : World :=
  set_ambient (set_stack (tail (stack (ambient w))) (ambient w)) w.

(** [with c as x: body]: the context is left on every way out. *)
Definition with_ {A : Type} (c : loc) (body : loc -> M A) : M A :=
  fun w =>
    let '(r, w') := (x ← enter c; body x) w in
    (r, exit_ w').

(** *** [ModelTemplate] and [Model] *)

(** The call [f( *args, **kwargs)] of a template function, logged. *)
Definition call (c : code) (args : list Value)
    (kwargs : gmap string Value) : M unit :=
  fun w =>
    let '(r, a) := call_function c args kwargs (ambient w) in
    (r, set_calls (calls w ++ [{| call_code := c; call_args := args;
                                  call_kwargs := kwargs;
                                  call_stack := stack (ambient w) |}])
                  (set_ambient a w)).

(** [Model.__init__] *)
Definition Model_new (template : ModelTemplate) (forward_context : loc)
    (template_args : list Value * gmap string Value) : M loc :=
  observations ← new_dict ∅;
  new_model {| _template := template;
               _template_args := template_args;
               _forward_context := forward_context;
               _observations := observations |}.

Definition _evaluate (self : loc) : M unit :=
  m ← get_model self;
  let '(args, kwargs) := _template_args m in
  c ← get_function (_func (_template m));
  call c args kwargs.

Definition configure (self : ModelTemplate) (args : list Value)
    (kwargs : gmap string Value) : M loc :=
  c ← ForwardContext_new;
  with_ c (fun context =>
    model ← Model_new self context (args, kwargs);
    _ ← _evaluate model;
    mret model).

(** The built-in [sum]: a left fold of [+] from [0]. *)
Definition py_sum (l : list Value) : Value := fold_left py_add l py_zero.

Definition log_prob_ (self : loc) (args : list Value) : M Value :=
  m ← get_model self;
  fc ← get_context (_forward_context m);
  context ← InferenceContext_new args (PyRandomVariable <$> vars fc);
  with_ context (fun _ =>
    _ ← _evaluate self;
    c ← get_context context;
    mret (py_sum (map (fun var => tf_reduce_sum (log_prob var)) (vars c)))).

Definition make_log_prob_function (self : loc) : list Value -> M Value :=
  log_prob_ self.

(** The dictionary comprehension of [forward_sample]: a later variable
    with the same name replaces an earlier one. *)
Definition samples_of (vs : list RandomVariable) : gmap string Value :=
  fold_left (fun d var => <[name var := as_tensor var]> d) vs ∅.

Definition forward_sample (self : loc) (args : list Value)
    (kwargs : gmap string Value) : M (gmap string Value) :=
  m ← get_model self;
  with_ (_forward_context m) (fun context =>
    c ← get_context context;
    mret (samples_of (vars c))).

(** [copy.copy(self)]: a new object with the same attribute values. *)
Definition copy_copy (self : loc) : M loc :=
  m ← get_model self;
  new_model m.

(** [d.update(kwargs)] on the dictionary object [d]. *)
Definition dict_update (d : loc) (kwargs : gmap string Value) : M unit :=
  old ← get_dict d;
  set_dict d (kwargs ∪ old).

Definition observe (self : loc) (kwargs : gmap string Value) : M loc :=
  model ← copy_copy self;
  m ← get_model model;
  _ ← dict_update (_observations m) kwargs;
  mret model.

(** *** The decorator *)

(** [parse_snippet( *unc)] *)
Definition parse_snippet_unc (u : uncompiled) : res node :=
  match u_source u with
  | SrcText s =>
      parse_snippet s (u_filename u) (u_mode u) (u_flags u)
                    (u_firstlineno u)
  | SrcAST _ => raise (PyException "TypeError")
  end.

Definition set_source (u : uncompiled) (s : source) : uncompiled :=
  {| u_source := s; u_filename := u_filename u; u_mode := u_mode u;
     u_flags := u_flags u; u_firstlineno := u_firstlineno u;
     u_privateprefix := u_privateprefix u |}.

(** The rewrite pipeline of [wrap], from [func.__code__] to the code
    assigned back to it: uncompile, parse, transform, recompile. *)
Definition auto_name_code (c : code) : res code :=
  unc ← uncompile c;
  tree ← parse_snippet_unc unc;
  tree ← AutoNameTransformer_visit tree;
  let tree := fix_missing_locations tree in
  let unc := set_source unc (SrcAST tree) in
  recompile_unc unc.

(** [wrap(func)] inside [model(auto_name)] *)
Definition wrap (auto_name : bool) (func : loc) : M ModelTemplate :=
  _ ← (if auto_name then
         c ← get_function func;
         c' ← lift (auto_name_code c);
         set_function func c'
       else mret tt);
  mret {| _func := func |}.

Definition model (auto_name : bool) : loc -> M ModelTemplate :=
  wrap auto_name.
End model.

(** ** The properties the specification names *)

(** A private name: it begins with two underscores and does not end with
    two underscores. *)
Definition starts_with_dunder (l : list ascii) : bool :=
  ascii_list_eqb (take 2 l) [underscore; underscore].
Definition ends_with_dunder (l : list ascii) : bool :=
  ascii_list_eqb (drop (length l - 2) l) [underscore; underscore].
Definition is_private_name (nm : string) : bool :=
  starts_with_dunder (chars nm) && negb (ends_with_dunder (chars nm)).

(** Re-mangling as the specification words it. *)
Definition mangle (privateprefix : string) (nm : string) : string :=
  if is_private_name nm then privateprefix +:+ nm else nm.

(** An identifier holds no newline. *)
Definition no_newline (nm : string) : Prop :=
  forallb is_dot (chars nm) = true.

(** A nested function, or one with free variables (a closure). *)
Definition is_nested (c : code) : Prop :=
  Z.land (co_flags c) CO_NESTED ≠ 0 ∨ co_freevars c ≠ [].
Definition is_lambda (c : code) : Prop := co_name c = "<lambda>".

(** The source lines of the code cannot be read: [inspect.getsourcelines]
    raises [IOError]. *)
Definition no_source_lines `{PyInterp} (c : code) : Prop :=
  exists e, getsourcelines c = inl e /\ is_IOError e = true.

(** The number of lines a prefix puts before the snippet. *)
Definition prefix_lines (prefix : string) : Z :=
  Z.of_nat (length (filter (fun c => c = newline) (chars prefix))).

(** Line [k] of a snippet that starts at line [firstlineno] of its file is
    line [firstlineno + k - 1] of the file. *)
Definition file_line (firstlineno k : Z) : Z := firstlineno + k - 1.

Section named_properties.
Context `{Backend} `{!Interp}.

(** The context object a call of the log-probability function creates,
    read in the store the call leaves. *)
Definition opened_context (w : World) (self : loc) (args : list Value)
    : option Context :=
  contexts (ambient (make_log_prob_function self args w).2)
    !! length (contexts (ambient w)).

Definition expected_vars_of (c : Context) : list pyobj :=
  match c with
  | InferenceContext _ _ ev => ev
  | ForwardContext _ => []
  end.

(** The name list of a context: the names of its variables, in order. *)
Definition names_of (c : Context) : list pyobj :=
  (fun var => PyStr (name var)) <$> vars c.

(** The variables of a context, as the objects they are. *)
Definition variables_of (c : Context) : list pyobj :=
  PyRandomVariable <$> vars c.

(** "The expected variables of the context opened by the call are the
    name list of the model's forward context." *)
Definition expects_names (w : World) (self : loc) (args : list Value)
    : Prop :=
  forall m fc,
    models w !! self = Some m ->
    contexts (ambient w) !! _forward_context m = Some fc ->
    exists c, opened_context w self args = Some c
              /\ expected_vars_of c = names_of fc.

(** [m._observations], read through the two references: the observation
    map of the model at [m]. *)
Definition observations_of (w : World) (m : loc)
    : option (gmap string Value) :=
  mo ← models w !! m; dicts w !! _observations mo.

(** The template function leaves the stack of contexts as it finds it,
    whether it returns or raises. *)
Definition keeps_stack : Prop :=
  forall c args kwargs a,
    stack (call_function c args kwargs a).2 = stack a.
End named_properties.

(** ** A small runtime, used for the examples *)

Module Demo.
Definition mk_code (nm filename : string) (firstlineno flags : Z)
    (consts : list const) (names varnames freevars : list string) : code :=
  {| co_argcount := 0; co_nlocals := Z.of_nat (length varnames);
     co_stacksize := 2; co_flags := flags; co_code := [];
     co_consts := consts; co_names := names; co_varnames := varnames;
     co_filename := filename; co_name := nm;
     co_firstlineno := firstlineno; co_lnotab := [];
     co_freevars := freevars; co_cellvars := [] |}.

Definition leaf (l : Z) : node :=
  {| n_class := Simple; n_lineno := Some l; n_body := []; n_fields := [] |}.

(** A function definition spanning two lines of the parsed text. *)
Definition def_f (l : Z) : node :=
  {| n_class := FunctionDef "f"; n_lineno := Some l;
     n_body := [leaf (l + 1)]; n_fields := [] |}.

Definition module_of (b : list node) : node :=
  {| n_class := Module; n_lineno := None; n_body := b; n_fields := [] |}.

(** A parser for the examples: text after a one-line prefix; an indented
    first line is an error unless the prefix opens a block. *)
Definition parse (text : string) : res node :=
  match chars text with
  | c1 :: c2 :: _ =>
      if Ascii.eqb c1 newline
      then if Ascii.eqb c2 " "
           then raise (IndentationError "unexpected indent")
           else mret (module_of [def_f 2])
      else if Ascii.eqb c1 "w"
           then mret (module_of
                  [{| n_class := With; n_lineno := Some 1;
                      n_body := [def_f 2]; n_fields := [leaf 1] |}])
           else raise (SyntaxError "invalid syntax")
  | _ => raise (SyntaxError "invalid syntax")
  end.

(** The code of a function body in the examples; it refers to some
    names. *)
Definition body_code (nm filename : string) (firstlineno : Z) : code :=
  mk_code nm filename firstlineno 67 []
          ["rv"; "__init__"; "__x"] ["a"; "b"] [].

(** The same with constants. *)
Definition body_code_with (consts : list const) (nm filename : string)
    (firstlineno : Z) : code :=
  mk_code nm filename firstlineno 67 consts
          ["rv"; "__init__"; "__x"] ["a"; "b"] [].

(** The string constants of a function in the examples: one for every
    keyword argument on a statement of its body. *)
Definition named_consts (n0 : node) : list const :=
  flat_map (fun s => map (fun _ => ConstObject "a") (n_fields s))
           (n_body n0).

(** A compiler for the examples: the module's code holds the code of its
    first statement. In the file [decorated.py] the function carries a
    decorator, and the code of its body starts on the decorator's line,
    one line above the [def]. *)
Definition compile_tree (a : node) (filename : string) : res code :=
  match n_body a with
  | n0 :: _ =>
      let l := default 0 (n_lineno n0) in
      let l := if String.eqb filename "decorated.py" then l - 1 else l in
      mret (mk_code "<module>" filename 1 64
              [ConstObject "f";
               ConstCode (body_code_with (named_consts n0) (n_name n0)
                                         filename l)]
              [] [] [])
  | [] => mret (mk_code "<module>" filename 1 64 [] [] [] [])
  end.

(** The constructor of Python 3.7 for the examples: fifteen arguments,
    the second one the number of keyword-only arguments. *)
Definition code_py37 (args : list pyarg) : res code :=
  match args with
  | [ArgInt argcount; ArgInt _; ArgInt nlocals; ArgInt stacksize;
     ArgInt flags; ArgBytes codestring; ArgConsts consts; ArgNames names;
     ArgNames varnames; ArgStr filename; ArgStr nm; ArgInt firstlineno;
     ArgBytes lnotab; ArgNames freevars; ArgNames cellvars] =>
      mret {| co_argcount := argcount; co_nlocals := nlocals;
              co_stacksize := stacksize; co_flags := flags;
              co_code := codestring; co_consts := consts;
              co_names := names; co_varnames := varnames;
              co_filename := filename; co_name := nm;
              co_firstlineno := firstlineno; co_lnotab := lnotab;
              co_freevars := freevars; co_cellvars := cellvars |}
  | _ => raise (PyException "TypeError")
  end.

(** In the examples the source of [model.py] is there, the file
    [gone.py] is missing and [torn.py] ends in the middle of a
    statement. *)
Definition interp : PyInterp :=
  {| PyCF_MASK := 2088960;
     getsourcelines c :=
       if String.eqb (co_filename c) "model.py"
       then inr (["def f():" +:+ str_newline;
                  "    a = rv(0)" +:+ str_newline], co_firstlineno c)
       else if String.eqb (co_filename c) "torn.py"
       then raise (PyException "tokenize.TokenError")
       else raise (IOError "could not get source code");
     code_new := code_py37;
     compile_source text _ _ _ _ := parse text;
     compile_ast a filename _ _ _ := compile_tree a filename |}.

Definition tools : AstTools :=
  {| AutoNameTransformer_visit a := mret a;
     fix_missing_locations a := a |}.

(** A visitor that names: it puts a keyword argument, a node without a
    line number yet, on every statement of the body of every function of
    the module; [fix_missing_locations] then gives such a node the line
    of its statement. *)
Definition keyword : node :=
  {| n_class := Simple; n_lineno := None; n_body := []; n_fields := [] |}.
Definition add_keyword (s : node) : node :=
  {| n_class := n_class s; n_lineno := n_lineno s; n_body := n_body s;
     n_fields := n_fields s ++ [keyword] |}.
Definition locate (s : node) : node :=
  {| n_class := n_class s; n_lineno := n_lineno s; n_body := n_body s;
     n_fields := map (fun k =>
                        {| n_class := n_class k;
                           n_lineno := match n_lineno k with
                                       | Some l => Some l
                                       | None => n_lineno s
                                       end;
                           n_body := n_body k; n_fields := n_fields k |})
                     (n_fields s) |}.
Definition in_functions (f : node -> node) (a : node) : node :=
  set_body a (map (fun d => set_body d (map f (n_body d))) (n_body a)).
Definition naming_tools : AstTools :=
  {| AutoNameTransformer_visit a := mret (in_functions add_keyword a);
     fix_missing_locations a := in_functions locate a |}.

(** Integers stand for the values of the backend. *)
Definition backend : Backend :=
  {| Value := Z; tf_reduce_sum v := v; py_add := Z.add; py_zero := 0 |}.
#[local] Existing Instance backend.

Definition rv (nm : string) (v : Z) : @RandomVariable backend :=
  {| name := nm; as_tensor := v; log_prob := - (v * v) |}.

Definition expected_name (o : @pyobj backend) : string :=
  match o with
  | PyRandomVariable var => name var
  | PyStr s => s
  | PyValue _ => EmptyString
  end.

Fixpoint index_of (nm : string) (l : list string) : option nat :=
  match l with
  | [] => None
  | x :: r => if String.eqb x nm then Some O else S <$> index_of nm r
  end.

(** Modelled from the spec: a variable under construction registers with
    the context on top of the stack. A forward context appends it with
    its own value (here [1]); an inference context appends it with the
    provided value at the position of its name among the expected
    variables, when it is expected. *)
Definition register (nm : string) (a : @Ambient backend) : Ambient :=
  match stack a with
  | [] => a
  | top :: _ =>
      match contexts a !! top with
      | Some (ForwardContext vs) =>
          set_contexts
            (<[top := ForwardContext (vs ++ [rv nm 1])]> (contexts a)) a
      | Some (InferenceContext vs pv ev) =>
          let v := default 1 (i ← index_of nm (expected_name <$> ev);
                              pv !! i) in
          set_contexts
            (<[top := InferenceContext (vs ++ [rv nm v]) pv ev]>
               (contexts a)) a
      | None => a
      end
  end.

(** A template function constructs one variable per local variable of
    its code. *)
Definition interpreter : @Interp backend :=
  {| call_function c _ _ a := (inr tt, fold_left (fun a nm => register nm a)
                                                 (co_varnames c) a) |}.
#[local] Existing Instance interpreter.

Definition f_code : code :=
  mk_code "f" "model.py" 10 67 [] ["rv"] ["a"; "b"] [].
Definition lambda_code : code :=
  mk_code "<lambda>" "model.py" 10 67 [] [] [] [].
Definition closure_code : code :=
  mk_code "g" "model.py" 10 19 [] [] [] ["x"].
Definition lost_code : code :=
  mk_code "h" "gone.py" 10 67 [] [] [] [].
Definition torn_code : code :=
  mk_code "t" "torn.py" 10 67 [] [] [] [].

Definition world0 : @World backend :=
  {| functions := [f_code; lambda_code; closure_code; lost_code];
     ambient := {| contexts := []; stack := [] |};
     dicts := []; models := []; calls := [] |}.

Definition template : ModelTemplate := {| _func := 0%nat |}.

(** The store after [template.configure()]: model [0] with forward
    context [0] and observation dictionary [0]. *)
Definition world1 : @World backend :=
  snd (configure template [] ∅ world0).

(** The model and the forward context of [world1]. *)
Definition model0 : Model :=
  {| _template := template; _template_args := ([], ∅);
     _forward_context := 0%nat; _observations := 0%nat |}.
Definition forward0 : Context :=
  ForwardContext [rv "a" 1; rv "b" 1].
End Demo.

(** * Properties of [ast_compiler.py] *)

Section strings_facts.

Lemma existsb_seq_S (f : nat -> bool) (n : nat) :
  existsb f (seq 0 (S n)) = true <-> exists k, (k <= n)%nat /\ f k = true.
Proof.
  rewrite existsb_exists. split.
  - intros (k & Hin & Hk). apply in_seq in Hin. exists k. split; [lia|done].
  - intros (k & Hle & Hk). exists k. split; [|done]. apply in_seq. lia.
Qed.

Lemma ascii_list_eqb_true (a b : list ascii) :
  ascii_list_eqb a b = true <-> a = b.
Proof. unfold ascii_list_eqb. by rewrite bool_decide_eq_true. Qed.

Lemma forallb_is_dot_drop (l : list ascii) (p : nat) :
  forallb is_dot l = true -> forallb is_dot (drop p l) = true.
Proof.
  rewrite !forallb_forall. intros Hl c Hc. apply Hl.
  apply list_elem_of_In. apply list_elem_of_In in Hc.
  revert Hc. apply (subseteq_drop p l).
Qed.

Lemma forallb_is_dot_take (l : list ascii) (p : nat) :
  forallb is_dot l = true -> forallb is_dot (take p l) = true.
Proof.
  rewrite !forallb_forall. intros Hl c Hc. apply Hl.
  apply list_elem_of_In. apply list_elem_of_In in Hc.
  revert Hc. apply (subseteq_take p l).
Qed.

(** Without a newline in the text, [$] holds at the end only. *)
Lemma dollar_at_no_newline (l : list ascii) (p : nat) :
  forallb is_dot l = true -> dollar_at p l = (p =? length l)%nat.
Proof.
  intros Hl. unfold dollar_at.
  destruct (ascii_list_eqb (drop p l) [newline]) eqn:E.
  - apply ascii_list_eqb_true in E.
    apply (forallb_is_dot_drop l p) in Hl. rewrite E in Hl.
    discriminate Hl.
  - by rewrite andb_false_r, orb_false_r.
Qed.

(** On a name without newline the regular expression of [fixnames] says
    what the specification says. *)
Lemma isprivate_is_private_name (nm : string) :
  no_newline nm -> isprivate nm = is_private_name nm.
Proof.
  unfold no_newline, isprivate, is_private_name, starts_with_dunder,
    ends_with_dunder.
  set (l := chars nm). intros Hl.
  destruct (ascii_list_eqb (take 2 l) [underscore; underscore]) eqn:Hs;
    [|done].
  assert (Hlen : (2 <= length l)%nat).
  { apply ascii_list_eqb_true in Hs.
    apply (f_equal length) in Hs. rewrite length_take in Hs.
    cbn [length] in Hs. lia. }
  assert (Hend : not_after_dunder (length l) l
                 = negb (ascii_list_eqb (drop (length l - 2) l)
                                        [underscore; underscore])).
  { unfold not_after_dunder.
    replace (2 <=? length l)%nat with true
      by (symmetry; apply Nat.leb_le; lia).
    rewrite take_ge; [done|]. rewrite length_drop. lia. }
  cbn [andb]. apply eq_iff_eq_true.
  rewrite existsb_seq_S. split.
  - intros (k & Hk & Hf).
    rewrite !andb_true_iff in Hf. destruct Hf as [[_ Hnb] Hd].
    rewrite (dollar_at_no_newline l _ Hl) in Hd.
    apply Nat.eqb_eq in Hd. rewrite Hd in Hnb. by rewrite <- Hend.
  - intros Hne. exists (length l - 2)%nat. split; [lia|].
    replace (2 + (length l - 2))%nat with (length l) by lia.
    rewrite (dollar_at_no_newline l _ Hl), Nat.eqb_refl, Hend, Hne.
    rewrite !andb_true_r.
    apply forallb_is_dot_take. by apply forallb_is_dot_drop.
Qed.

(** The regular expression at work: private names, dunder names, plain
    names. *)
Example isprivate_private : isprivate "__x" = true /\ isprivate "__a_" = true.
Proof. by split. Qed.

Example isprivate_dunder :
  isprivate "__init__" = false /\ isprivate "__" = false
  /\ isprivate "___" = false.
Proof. by repeat split. Qed.

Example isprivate_plain : isprivate "_x" = false /\ isprivate "x__" = false.
Proof. by split. Qed.

(** Why identifiers are asked to hold no newline: [$] also holds before a
    final newline, where the look-behind sees the two underscores. *)
Example isprivate_final_newline :
  isprivate ("__" +:+ str_newline) = false
  /\ is_private_name ("__" +:+ str_newline) = true.
Proof. by split. Qed.

(** The prefix [uncompile] records is the longest one the pattern allows. *)
Example match_private_prefix_greedy :
  match_private_prefix "_Foo__bar" = Some "_Foo"
  /\ match_private_prefix "_Foo__bar__baz" = Some "_Foo__bar"
  /\ match_private_prefix "__bar" = None.
Proof. by repeat split. Qed.

Lemma fixnames_mangle (p : string) (names : list string) :
  Forall no_newline names -> fixnames p names = map (mangle p) names.
Proof.
  intros Hn. unfold fixnames, mangle. apply map_ext_in.
  intros nm Hin. rewrite isprivate_is_private_name; [done|].
  rewrite Forall_forall in Hn. apply Hn. by apply list_elem_of_In.
Qed.
End strings_facts.

Section tree_facts.

(** Induction on syntax trees, with the hypothesis on all children. *)
Lemma node_ind_nested (P : node -> Prop) :
  (forall k l b f, Forall P b -> Forall P f -> P (Node k l b f)) ->
  forall n, P n.
Proof.
  intros IH. fix rec 1. intros [k l b f]. apply IH.
  - induction b as [|x b IHb]; constructor; [apply rec | apply IHb].
  - induction f as [|x f IHf]; constructor; [apply rec | apply IHf].
Qed.

Lemma flat_map_linenos_increment (n : Z) (l : list node) :
  Forall (fun a => linenos (increment_lineno a n)
                   = map (Z.add n) (linenos a)) l ->
  flat_map linenos (map (fun c => increment_lineno c n) l)
  = map (Z.add n) (flat_map linenos l).
Proof.
  induction 1 as [|a l Ha _ IH]; [done|].
  cbn [map flat_map]. by rewrite map_app, Ha, IH.
Qed.

(** [increment_lineno] adds [n] to every line number of the tree. *)
Lemma linenos_increment (n : Z) (a : node) :
  linenos (increment_lineno a n) = map (Z.add n) (linenos a).
Proof.
  induction a as [k l b f IHb IHf] using node_ind_nested.
  cbn [linenos increment_lineno n_lineno n_body n_fields].
  rewrite !map_app, !flat_map_linenos_increment by done.
  by destruct l.
Qed.

Lemma prefix_plain_one_line : prefix_lines prefix_plain = 1.
Proof. reflexivity. Qed.

Lemma prefix_with_one_line : prefix_lines prefix_with = 1.
Proof. reflexivity. Qed.

(** Shifting by [firstlineno - 2] after a one-line prefix puts every
    node on its line of the file. *)
Lemma shift_is_file_line (firstlineno : Z) (ls : list Z) :
  map (Z.add (firstlineno - 2)) ls
  = map (fun l => file_line firstlineno (l - 1)) ls.
Proof. apply map_ext. intros l. unfold file_line. lia. Qed.
End tree_facts.

Section ast_compiler_facts.
Context `{PyInterp}.

Lemma find_body_code_none (nm : string) (l : Z) (consts : list const) :
  (forall c, ConstCode c ∈ consts ->
             ~ (co_name c = nm /\ co_firstlineno c = l)) ->
  find_body_code nm (Some l) consts
  = inl (Error "Function body code not found").
Proof.
  induction consts as [|k consts IH]; intros Hno; [done|].
  assert (Hrest : forall c, ConstCode c ∈ consts ->
                            ~ (co_name c = nm /\ co_firstlineno c = l)).
  { intros c Hc. apply Hno. by right. }
  destruct k as [c|o]; cbn [find_body_code]; [|by apply IH].
  destruct (String.eqb (co_name c) nm) eqn:En; [|by apply IH].
  destruct (co_firstlineno c =? l) eqn:El; [|by apply IH].
  exfalso. apply (Hno c); [by left|].
  split; [by apply String.eqb_eq | by apply Z.eqb_eq].
Qed.

(** A found body is one of the constants, and it matches. *)
Lemma find_body_code_some (nm : string) (l : option Z)
    (consts : list const) (c : code) :
  find_body_code nm l consts = inr c ->
  ConstCode c ∈ consts /\ co_name c = nm /\ Some (co_firstlineno c) = l.
Proof.
  induction consts as [|k consts IH]; [done|].
  destruct k as [c'|o]; cbn [find_body_code].
  - destruct (String.eqb (co_name c') nm) eqn:En.
    + destruct l as [l|]; [|done].
      destruct (co_firstlineno c' =? l) eqn:El.
      * intros [= ->]. split; [by left|].
        split; [by apply String.eqb_eq|].
        f_equal. by apply Z.eqb_eq.
      * intros Hf. destruct (IH Hf) as (? & ? & ?). split; [by right|done].
    + intros Hf. destruct (IH Hf) as (? & ? & ?). split; [by right|done].
  - intros Hf. destruct (IH Hf) as (? & ? & ?). split; [by right|done].
Qed.

(** C8. [parse_snippet] parses the snippet behind a one-line prefix and
    shifts the tree by [firstlineno - 2], so that a node on line [k] of
    the snippet gets line [firstlineno + k - 1], its line in the file.
    When the plain parse succeeds its tree is the one shifted. When the
    plain parse raises an indentation error, the snippet is parsed under
    a dummy [with] statement and the body of the resulting tree is
    replaced by the body of that statement: the wrapper node is gone and
    the statements of the snippet are what is left. *)
Theorem parse_snippet_shifts_and_peels
    (src filename mode : string) (flags firstlineno : Z) :
  prefix_lines prefix_plain = 1 /\ prefix_lines prefix_with = 1 /\
  (forall a,
     compile_source (prefix_plain +:+ src) filename mode
                    (Z.lor flags PyCF_ONLY_AST) true = inr a ->
     exists t,
       parse_snippet src filename mode flags firstlineno = inr t /\
       t = increment_lineno a (firstlineno - 2) /\
       linenos t
       = map (fun l => file_line firstlineno (l - prefix_lines prefix_plain))
             (linenos a)) /\
  (forall e a w,
     compile_source (prefix_plain +:+ src) filename mode
                    (Z.lor flags PyCF_ONLY_AST) true = inl e ->
     is_IndentationError e = true ->
     compile_source (prefix_with +:+ src) filename mode
                    (Z.lor flags PyCF_ONLY_AST) true = inr a ->
     get_body_0 a = inr w ->
     has_body (n_class w) = true ->
     exists t,
       parse_snippet src filename mode flags firstlineno = inr t /\
       n_class t = n_class a /\
       n_body t
       = map (fun s => increment_lineno s (firstlineno - 2)) (n_body w) /\
       linenos t
       = map (fun l => file_line firstlineno (l - prefix_lines prefix_with))
             (linenos (set_body a (n_body w)))).
Proof.
  split; [apply prefix_plain_one_line|].
  split; [apply prefix_with_one_line|].
  rewrite prefix_plain_one_line, prefix_with_one_line. split.
  - intros a Ha. eexists. unfold parse_snippet. rewrite Ha.
    split; [reflexivity|]. split; [reflexivity|].
    by rewrite linenos_increment, shift_is_file_line.
  - intros e a w He Hind Ha Hw Hb. eexists.
    unfold parse_snippet, parse_wrapped. rewrite He, Hind, Ha.
    cbn [mbind res_bind]. rewrite Hw. cbn [mbind res_bind].
    unfold get_body. rewrite Hb. cbn [mbind res_bind mret res_ret].
    split; [reflexivity|]. split; [reflexivity|]. split; [reflexivity|].
    by rewrite linenos_increment, shift_is_file_line.
Qed.

(** C6. [recompile] raises rather than returning a code object when the
    first statement of the tree is not a function definition
    (['Expecting function AST node']), and when it is one but no code
    object among the constants of the compiled module has both its name
    and its line (['Function body code not found']). *)
Theorem recompile_fails_explicitly
    (src : source) (filename mode : string) (flags firstlineno : Z)
    (privateprefix : option string) (a n0 : node) :
  source_tree src filename mode flags firstlineno = inr a ->
  get_body_0 a = inr n0 ->
  (isinstance_FunctionDef n0 = false ->
   recompile src filename mode flags firstlineno privateprefix
   = inl (Error "Expecting function AST node")) /\
  (forall c0 l,
     isinstance_FunctionDef n0 = true ->
     n_lineno n0 = Some l ->
     compile_ast a filename mode flags true = inr c0 ->
     (forall c, ConstCode c ∈ co_consts c0 ->
                ~ (co_name c = n_name n0 /\ co_firstlineno c = l)) ->
     recompile src filename mode flags firstlineno privateprefix
     = inl (Error "Function body code not found")).
Proof.
  intros Ha Hn. unfold recompile. rewrite Ha. cbn [mbind res_bind].
  rewrite Hn. cbn [mbind res_bind]. split.
  - by intros ->.
  - intros c0 l -> Hl Hc Hno. cbn [negb]. rewrite Hc, Hl.
    cbn [mbind res_bind]. by rewrite find_body_code_none.
Qed.

(** The call of the constructor at the end of [recompile] raises: the
    byte code is the fifth of the fourteen arguments. *)
Lemma CodeType_code_args (p : string) (c : code) :
  CodeType (code_args p c) = inl (PyException "TypeError").
Proof. reflexivity. Qed.

(** C7. With a mangling prefix [recompile] returns no code object. The
    names are mangled as they should be: in the tuples made of [co_names]
    and [co_varnames] a name gets the prefix exactly when it begins with
    two underscores and does not end with two. But the fourteen arguments
    go to the [code] constructor in an order that puts the byte code in
    fifth place, where Python 3 wants an integer, and the call raises
    [TypeError]: whenever [recompile] returns a body code without a
    prefix, it raises [TypeError] with one. *)
Theorem recompile_with_prefix_raises
    (src : source) (filename mode : string) (flags firstlineno : Z)
    (p : string) :
  (forall c,
     recompile src filename mode flags firstlineno (Some p) ≠ inr c) /\
  (forall cb,
     recompile src filename mode flags firstlineno None = inr cb ->
     recompile src filename mode flags firstlineno (Some p)
     = inl (PyException "TypeError") /\
     (Forall no_newline (co_names cb) ->
      code_args p cb !! 6%nat
      = Some (ArgNames (map (mangle p) (co_names cb)))) /\
     (Forall no_newline (co_varnames cb) ->
      code_args p cb !! 7%nat
      = Some (ArgNames (map (mangle p) (co_varnames cb))))).
Proof.
  unfold recompile, mbind, res_bind, mret, res_ret. cbn beta.
  destruct (source_tree _ _ _ _ _) as [e|a]; [by split|].
  destruct (get_body_0 a) as [e|n0]; [by split|].
  destruct (negb _); [by split|].
  destruct (compile_ast _ _ _ _ _) as [e|c0]; [by split|].
  destruct (find_body_code _ _ _) as [e|cb]; [by split|].
  rewrite CodeType_code_args. split; [done|].
  intros cb' [= <-]. split; [done|].
  split; intros Hn; cbn; by rewrite fixnames_mangle.
Qed.
End ast_compiler_facts.

(** * Properties of [_model.py] *)

(** Unfolds the sequencing of store computations in the goal. *)
Ltac run_M :=
  unfold mbind, M_bind, mret, M_ret, lift, deref, raise;
  cbn beta iota; cbn [fst snd].

(** Reads fields of updated stores. *)
Tactic Notation "store_simpl" :=
  cbn [functions ambient dicts models calls contexts stack
       set_functions set_ambient set_dicts set_models set_calls
       set_contexts set_stack].
Tactic Notation "store_simpl" "in" "*" :=
  cbn [functions ambient dicts models calls contexts stack
       set_functions set_ambient set_dicts set_models set_calls
       set_contexts set_stack] in *.

Section store_facts.
Context `{Backend}.

Lemma get_model_some (w : World) (l : loc) (m : Model) :
  models w !! l = Some m -> get_model l w = (inr m, w).
Proof. intros Hm. unfold get_model. by rewrite Hm. Qed.

Lemma get_context_some (w : World) (l : loc) (c : Context) :
  contexts (ambient w) !! l = Some c -> get_context l w = (inr c, w).
Proof. intros Hc. unfold get_context. by rewrite Hc. Qed.

Lemma get_function_some (w : World) (l : loc) (c : code) :
  functions w !! l = Some c -> get_function l w = (inr c, w).
Proof. intros Hc. unfold get_function. by rewrite Hc. Qed.

Lemma get_dict_some (w : World) (l : loc) (d : gmap string Value) :
  dicts w !! l = Some d -> get_dict l w = (inr d, w).
Proof. intros Hd. unfold get_dict. by rewrite Hd. Qed.

(** A new object sits at the end of its store: its location was free,
    and the objects already there keep theirs. *)
Lemma lookup_alloc_new {A : Type} (h : list A) (x : A) :
  h !! length h = None /\ (h ++ [x]) !! length h = Some x.
Proof.
  split; [by apply lookup_ge_None|].
  rewrite lookup_app_r by lia. by rewrite Nat.sub_diag.
Qed.

Lemma lookup_alloc_old {A : Type} (h : list A) (x y : A) (l : nat) :
  h !! l = Some y -> (h ++ [x]) !! l = Some y.
Proof. intros Hl. by apply lookup_app_l_Some. Qed.
End store_facts.

Section samples_facts.
Context `{Backend}.





End samples_facts.

Section model_facts.
Context `{Backend} `{!Interp}.

(** Leaving a context that was just entered restores the store. *)
Lemma exit_enter (w : World) (c : loc) : exit_ (enter c w).2 = w.
Proof. by destruct w as [f [cs st] d m cl]. Qed.


(** What [observe] does to the store: the copy is a new model object
    with the attributes of the original, and the dictionary both refer
    to is updated in place. *)
Lemma observe_run (w : World) (self : loc) (kwargs : gmap string Value)
    (m : Model) (old : gmap string Value) :
  models w !! self = Some m ->
  dicts w !! _observations m = Some old ->
  observe self kwargs w
  = (inr (length (models w)),
     set_dicts (<[_observations m := kwargs ∪ old]> (dicts w))
               (set_models (models w ++ [m]) w)).
Proof.
  intros Hm Hd.
  unfold observe, copy_copy, dict_update, new_model, get_model, get_dict,
    set_dict.
  run_M. rewrite Hm. run_M. store_simpl.
  rewrite (proj2 (lookup_alloc_new (models w) m)). run_M. store_simpl.
  rewrite Hd. run_M. reflexivity.
Qed.

(** After [observe], the original and the copy read the same, extended,
    observation map: the original's map is the one that was updated. *)
Lemma observe_shares_observations (w : World) (self : loc)
    (kwargs : gmap string Value) (m : Model) (old : gmap string Value) :
  models w !! self = Some m ->
  dicts w !! _observations m = Some old ->
  exists w' copy,
    observe self kwargs w = (inr copy, w') /\
    copy ≠ self /\
    models w' !! self = Some m /\
    models w' !! copy = Some m /\
    dicts w' !! _observations m = Some (kwargs ∪ old).
Proof.
  intros Hm Hd. eexists _, _. split; [by apply observe_run|].
  cbn [models dicts set_dicts set_models].
  split; [|split; [|split]].
  - apply lookup_lt_Some in Hm. lia.
  - by apply lookup_alloc_old.
  - apply lookup_alloc_new.
  - apply list_lookup_insert_eq. by apply lookup_lt_Some in Hd.
Qed.

(** C3. Constructing an inference context with a number of provided
    values that differs from the number of expected variables raises
    [ContextMismatch] at once: no context is created and the store is
    left as it was. *)
Theorem InferenceContext_rejects_mismatch
    (w : World) (provided_values : list Value)
    (expected_vars : list pyobj) :
  length provided_values ≠ length expected_vars ->
  InferenceContext_new provided_values expected_vars w
  = (inl ContextMismatch, w).
Proof.
  intros Hlen. unfold InferenceContext_new.
  by rewrite bool_decide_eq_false_2.
Qed.

(** Hence the log-probability function raises [ContextMismatch] before
    it evaluates the template, when it is given a number of values
    other than the number of variables of the forward context. *)
Lemma log_prob_rejects_mismatch (w : World) (self : loc)
    (args : list Value) (m : Model) (fc : Context) :
  models w !! self = Some m ->
  contexts (ambient w) !! _forward_context m = Some fc ->
  length args ≠ length (vars fc) ->
  make_log_prob_function self args w = (inl ContextMismatch, w).
Proof.
  intros Hm Hfc Hlen. unfold make_log_prob_function, log_prob_. run_M.
  rewrite (get_model_some _ _ _ Hm). run_M.
  rewrite (get_context_some _ _ _ Hfc). run_M.
  unfold InferenceContext_new.
  rewrite bool_decide_eq_false_2 by (by rewrite length_fmap). by run_M.
Qed.

(** C9. [configure] creates a forward context (a new, empty object) and
    enters it, constructs a model holding the template, the arguments
    and that context, and calls the template function once, on those
    arguments, while the new context is on top of the stack; the context
    is left when the call is over. It returns the model (or raises what
    the template function raised); the context the model refers to is
    the object the call has filled. *)
Theorem configure_evaluates_once
    (w : World) (self : ModelTemplate) (args : list Value)
    (kwargs : gmap string Value) (c : code) :
  functions w !! _func self = Some c ->
  let cl := length (contexts (ambient w)) in
  let ml := length (models w) in
  let a0 := {| contexts := contexts (ambient w) ++ [ForwardContext []];
               stack := cl :: stack (ambient w) |} in
  let out := call_function c args kwargs a0 in
  let w' := (configure self args kwargs w).2 in
  contexts (ambient w) !! cl = None /\
  (configure self args kwargs w).1
  = match out.1 with inl e => inl e | inr _ => inr ml end /\
  models w' = models w ++ [{| _template := self;
                              _template_args := (args, kwargs);
                              _forward_context := cl;
                              _observations := length (dicts w) |}] /\
  dicts w' = dicts w ++ [∅] /\
  calls w' = calls w ++ [{| call_code := c; call_args := args;
                            call_kwargs := kwargs;
                            call_stack := cl :: stack (ambient w) |}] /\
  ambient w' = set_stack (tail (stack out.2)) out.2 /\
  contexts (ambient w') !! cl = contexts out.2 !! cl /\
  functions w' = functions w.
Proof.
  intros Hc cl ml a0 out w'.
  split; [by apply lookup_ge_None|].
  subst w' out a0 ml cl. destruct w as [fs [cs st] ds ms cls].
  unfold configure, ForwardContext_new, with_, enter, exit_, Model_new,
    _evaluate, new_context, new_dict, new_model, get_model, get_function,
    call.
  run_M. simpl in *.
  rewrite (proj2 (lookup_alloc_new ms _)). run_M. simpl.
  rewrite Hc. run_M. simpl.
  destruct (call_function c args kwargs _) as [[e|[]] a1]; by simpl.
Qed.

(** C2, as the code has it. The function [make_log_prob_function]
    returns, applied to a tuple of as many values as the forward context
    holds variables, creates an inference context with no captured
    variable, the tuple as provided values and, as expected variables,
    the variables of the model's forward context (the objects, not
    their names); it calls the template function once, on the
    arguments the model was configured with, while that context is on
    top of the stack, and returns the sum of the reduced
    log-probabilities of the variables the context holds after the
    call. *)
Theorem log_prob_sums_captured
    (w : World) (self : loc) (args : list Value) (m : Model)
    (fc : Context) (c : code) :
  models w !! self = Some m ->
  contexts (ambient w) !! _forward_context m = Some fc ->
  functions w !! _func (_template m) = Some c ->
  length args = length (vars fc) ->
  let cl := length (contexts (ambient w)) in
  let a0 := {| contexts := contexts (ambient w)
                 ++ [InferenceContext [] args (variables_of fc)];
               stack := cl :: stack (ambient w) |} in
  let out := call_function c (_template_args m).1 (_template_args m).2 a0 in
  let w' := (make_log_prob_function self args w).2 in
  contexts (ambient w) !! cl = None /\
  (make_log_prob_function self args w).1
  = match out.1 with
    | inl e => inl e
    | inr _ =>
        match contexts out.2 !! cl with
        | Some ctx =>
            inr (py_sum (map (fun var => tf_reduce_sum (log_prob var))
                             (vars ctx)))
        | None => inl (PyException "SystemError")
        end
    end /\
  calls w' = calls w ++ [{| call_code := c;
                            call_args := (_template_args m).1;
                            call_kwargs := (_template_args m).2;
                            call_stack := cl :: stack (ambient w) |}] /\
  ambient w' = set_stack (tail (stack out.2)) out.2.
Proof.
  intros Hm Hfc Hc Hlen cl a0 out w'.
  split; [by apply lookup_ge_None|].
  subst w' out a0 cl. destruct w as [fs [cs st] ds ms cls].
  unfold make_log_prob_function, log_prob_, InferenceContext_new, with_,
    enter, exit_, _evaluate, new_context, get_model, get_function,
    get_context, call, variables_of.
  run_M. simpl in *. rewrite Hm. run_M. simpl. rewrite Hfc. run_M.
  rewrite bool_decide_eq_true_2 by (by rewrite length_fmap).
  run_M. simpl. rewrite Hm. run_M.
  destruct (_template_args m) as [targs tkwargs].
  simpl. rewrite Hc. run_M. simpl.
  destruct (call_function c targs tkwargs _) as [[e|[]] a1];
    run_M; simpl; [done|].
  destruct (contexts a1 !! length cs); by simpl.
Qed.
End model_facts.

Section decorator_facts.
Context `{Backend} `{PyInterp} `{AstTools}.

Lemma uncompile_nested (c : code) :
  is_nested c ->
  uncompile c = inl (Unsupported "nested functions not supported").
Proof.
  intros Hn. unfold uncompile.
  replace (negb (Z.land (co_flags c) CO_NESTED =? 0)
           || negb (bool_decide (co_freevars c = []))) with true; [done|].
  symmetry. apply orb_true_iff. destruct Hn as [Hf|Hv].
  - left. apply negb_true_iff. by apply Z.eqb_neq.
  - right. apply negb_true_iff. by apply bool_decide_eq_false_2.
Qed.

Lemma uncompile_lambda (c : code) :
  is_lambda c -> exists msg, uncompile c = inl (Unsupported msg).
Proof.
  intros Hl. unfold uncompile. destruct (_ || _); [by eexists|].
  unfold is_lambda in Hl. rewrite Hl. by eexists.
Qed.

Lemma uncompile_string_file (c : code) :
  co_filename c = "<string>" ->
  exists msg, uncompile c = inl (Unsupported msg).
Proof.
  intros Hf. unfold uncompile. destruct (_ || _); [by eexists|].
  destruct (String.eqb (co_name c) _); [by eexists|].
  rewrite Hf. by eexists.
Qed.

Lemma uncompile_no_source (c : code) :
  no_source_lines c ->
  exists msg, uncompile c = inl (Unsupported msg)
              \/ uncompile c = inl (NoSource msg).
Proof.
  intros (e & Hs & He). unfold uncompile.
  destruct (_ || _); [by eexists; left|].
  destruct (String.eqb (co_name c) _); [by eexists; left|].
  destruct (String.eqb (co_filename c) _); [by eexists; left|].
  rewrite Hs, He. by eexists; right.
Qed.

(** A function that passes the three checks and has no source lines is
    rejected with [NoSource]. *)
Lemma uncompile_no_source_lines (c : code) :
  ~ is_nested c -> ~ is_lambda c -> co_filename c ≠ "<string>" ->
  no_source_lines c ->
  uncompile c = inl (NoSource "source code not available").
Proof.
  intros Hn Hl Hf (e & Hs & He). unfold uncompile.
  destruct (negb (Z.land (co_flags c) CO_NESTED =? 0)
            || negb (bool_decide (co_freevars c = []))) eqn:E.
  { exfalso. apply Hn. apply orb_true_iff in E as [E|E].
    - left. apply Z.eqb_neq. by apply negb_true_iff.
    - right. apply negb_true_iff in E. by apply bool_decide_eq_false in E. }
  destruct (String.eqb (co_name c) _) eqn:E1.
  { exfalso. apply Hl. by apply String.eqb_eq. }
  destruct (String.eqb (co_filename c) _) eqn:E2.
  { exfalso. apply Hf. by apply String.eqb_eq. }
  by rewrite Hs, He.
Qed.

(** A function that passes the three checks and has source lines is
    uncompiled. *)
Lemma uncompile_supported (c : code) (lines : list string) (l : Z) :
  ~ is_nested c -> ~ is_lambda c -> co_filename c ≠ "<string>" ->
  getsourcelines c = inr (lines, l) ->
  uncompile c
  = inr {| u_source := SrcText (String.concat EmptyString lines);
           u_filename := co_filename c;
           u_mode := "exec";
           u_flags := Z.land (co_flags c) PyCF_MASK;
           u_firstlineno := l;
           u_privateprefix := find_privateprefix (co_names c) |}.
Proof.
  intros Hn Hl Hf Hs. unfold uncompile.
  destruct (negb (Z.land (co_flags c) CO_NESTED =? 0)
            || negb (bool_decide (co_freevars c = []))) eqn:E.
  { exfalso. apply Hn. apply orb_true_iff in E as [E|E].
    - left. apply Z.eqb_neq. by apply negb_true_iff.
    - right. apply negb_true_iff in E. by apply bool_decide_eq_false in E. }
  destruct (String.eqb (co_name c) _) eqn:E1.
  { exfalso. apply Hl. by apply String.eqb_eq. }
  destruct (String.eqb (co_filename c) _) eqn:E2.
  { exfalso. apply Hf. by apply String.eqb_eq. }
  by rewrite Hs.
Qed.

Lemma auto_name_code_uncompile (c : code) (e : Exn) :
  uncompile c = inl e -> auto_name_code c = inl e.
Proof. intros Hu. unfold auto_name_code. by rewrite Hu. Qed.

(** A failure of the pipeline is the failure of the decorator, and the
    store is not touched. *)
Lemma wrap_pipeline_failure (w : World) (func : loc) (c : code) (e : Exn) :
  functions w !! func = Some c ->
  auto_name_code c = inl e ->
  wrap true func w = (inl e, w).
Proof.
  intros Hc He. unfold wrap, get_function. run_M.
  rewrite Hc. run_M. by rewrite He.
Qed.

Lemma wrap_pipeline_success (w : World) (func : loc) (c c' : code) :
  functions w !! func = Some c ->
  auto_name_code c = inr c' ->
  wrap true func w
  = (inr {| _func := func |},
     set_functions (<[func := c']> (functions w)) w).
Proof.
  intros Hc He. unfold wrap, get_function, set_function. run_M.
  rewrite Hc. run_M. by rewrite He.
Qed.

Lemma wrap_raises_unchanged (auto_name : bool) (w w' : World)
    (func : loc) (e : Exn) :
  wrap auto_name func w = (inl e, w') -> w' = w.
Proof.
  unfold wrap, get_function, set_function. run_M.
  destruct auto_name; [|done].
  destruct (functions w !! func) as [c|]; run_M; [|by intros [= _ ->]].
  destruct (auto_name_code c); [by intros [= _ ->]|done].
Qed.

(** C5. Decorating with [auto_name=True] a function that is nested or
    has free variables, that is a lambda, or whose source cannot be
    retrieved (its file name is ['<string>'], or its source lines cannot
    be read) raises at once: [Unsupported] in the first cases, and
    [Unsupported] or [NoSource] when the source lines cannot be read
    ([NoSource] when only that is wrong). Whenever the decorator raises,
    the store is the one before the call: the function object keeps its
    code. *)
Theorem wrap_rejects_unsupported (w : World) (func : loc) (c : code) :
  functions w !! func = Some c ->
  (is_nested c \/ is_lambda c \/ co_filename c = "<string>" ->
   exists msg, model true func w = (inl (Unsupported msg), w)) /\
  (no_source_lines c ->
   exists msg, model true func w = (inl (Unsupported msg), w)
               \/ model true func w = (inl (NoSource msg), w)) /\
  (~ is_nested c -> ~ is_lambda c -> co_filename c ≠ "<string>" ->
   no_source_lines c ->
   model true func w = (inl (NoSource "source code not available"), w)) /\
  (forall e w',
     model true func w = (inl e, w') ->
     w' = w /\ functions w' !! func = Some c).
Proof.
  intros Hc. unfold model. split; [|split; [|split]].
  - intros [Hn|[Hl|Hf]].
    + eexists. apply (wrap_pipeline_failure _ _ _ _ Hc).
      by apply auto_name_code_uncompile, uncompile_nested.
    + destruct (uncompile_lambda c Hl) as [msg Hu]. exists msg.
      apply (wrap_pipeline_failure _ _ _ _ Hc).
      by apply auto_name_code_uncompile.
    + destruct (uncompile_string_file c Hf) as [msg Hu]. exists msg.
      apply (wrap_pipeline_failure _ _ _ _ Hc).
      by apply auto_name_code_uncompile.
  - intros Hs. destruct (uncompile_no_source c Hs) as [msg [Hu|Hu]];
      exists msg; [left|right];
      apply (wrap_pipeline_failure _ _ _ _ Hc);
      by apply auto_name_code_uncompile.
  - intros Hn Hl Hf Hs. apply (wrap_pipeline_failure _ _ _ _ Hc).
    by apply auto_name_code_uncompile, uncompile_no_source_lines.
  - intros e w' Hw. apply wrap_raises_unchanged in Hw. by subst w'.
Qed.

(** C10. When the pipeline succeeds on the code of the function, the
    decorator with [auto_name=True] stores the recompiled code in the
    function object itself, which from then on has that code and not
    the one it had; the other function objects are untouched, and the
    template returned refers to that same function object. The code
    stored is the auto-named one: what [recompile] gives for the tree
    that the visitor and [fix_missing_locations] made of the parse of the
    source lines, with the file, the flags, the first line and the
    prefix of the function's code. *)
Theorem wrap_patches_function
    (w : World) (func : loc) (c c' : code) (lines : list string) (l : Z)
    (tree tree' : node) :
  functions w !! func = Some c ->
  ~ is_nested c -> ~ is_lambda c -> co_filename c ≠ "<string>" ->
  getsourcelines c = inr (lines, l) ->
  parse_snippet (String.concat EmptyString lines) (co_filename c) "exec"
                (Z.land (co_flags c) PyCF_MASK) l = inr tree ->
  AutoNameTransformer_visit tree = inr tree' ->
  recompile (SrcAST (fix_missing_locations tree')) (co_filename c) "exec"
            (Z.land (co_flags c) PyCF_MASK) l
            (find_privateprefix (co_names c)) = inr c' ->
  let w' := (model true func w).2 in
  (model true func w).1 = inr {| _func := func |} /\
  functions w' !! func = Some c' /\
  (forall g, g ≠ func -> functions w' !! g = functions w !! g) /\
  (ambient w', dicts w', models w', calls w')
  = (ambient w, dicts w, models w, calls w).
Proof.
  intros Hc Hn Hl Hf Hs Ht Hv Hr w'. subst w'. unfold model.
  assert (Hp : auto_name_code c = inr c').
  { unfold auto_name_code.
    rewrite (uncompile_supported c lines l Hn Hl Hf Hs).
    unfold mbind, res_bind at 1. cbn beta iota.
    unfold parse_snippet_unc. cbn [u_source u_filename u_mode u_flags
                                   u_firstlineno].
    rewrite Ht. unfold mbind, res_bind at 1. cbn beta iota.
    rewrite Hv. unfold mbind, res_bind. cbn beta iota. exact Hr. }
  rewrite (wrap_pipeline_success _ _ _ _ Hc Hp). cbn [fst snd].
  split; [done|]. split; [|split].
  - cbn [functions set_functions]. apply list_lookup_insert_eq.
    by apply lookup_lt_Some in Hc.
  - intros g Hg. cbn [functions set_functions].
    by apply list_lookup_insert_ne.
  - done.
Qed.

(** Without [auto_name] the decorator only wraps the function. *)
Lemma wrap_plain (w : World) (func : loc) :
  model false func w = (inr {| _func := func |}, w).
Proof. reflexivity. Qed.
End decorator_facts.

(** * Further properties of [ast_compiler.py] *)

Section uncompile_facts.
Context `{PyInterp}.

(** The first test of [uncompile], as a condition on the code. *)
Lemma nested_test (c : code) :
  negb (Z.land (co_flags c) CO_NESTED =? 0)
  || negb (bool_decide (co_freevars c = [])) = true <-> is_nested c.
Proof.
  unfold is_nested.
  rewrite orb_true_iff, !negb_true_iff, Z.eqb_neq, bool_decide_eq_false.
  reflexivity.
Qed.

Lemma nested_test_false (c : code) :
  negb (Z.land (co_flags c) CO_NESTED =? 0)
  || negb (bool_decide (co_freevars c = [])) = false <-> ~ is_nested c.
Proof. rewrite <- nested_test. by destruct (_ || _). Qed.

(** X1. [uncompile] returns exactly for the code objects that are not
    nested, have no free variable, are not a lambda, are not from the
    file ['<string>'] and whose source lines [inspect.getsourcelines]
    gives. When it raises, the exception is [Unsupported], or [NoSource]
    in place of an [IOError] of [inspect.getsourcelines], or whatever else
    [inspect.getsourcelines] raised, which is not caught. *)
Theorem uncompile_returns_iff (c : code) :
  ((exists u, uncompile c = inr u) <->
   ~ is_nested c /\ ~ is_lambda c /\ co_filename c ≠ "<string>"
   /\ exists r, getsourcelines c = inr r) /\
  (forall e,
     uncompile c = inl e ->
     (exists msg, e = Unsupported msg)
     \/ (e = NoSource "source code not available" /\ no_source_lines c)
     \/ (getsourcelines c = inl e /\ is_IOError e = false)) /\
  (forall e,
     ~ is_nested c -> ~ is_lambda c -> co_filename c ≠ "<string>" ->
     getsourcelines c = inl e -> is_IOError e = false ->
     uncompile c = inl e).
Proof.
  unfold uncompile, is_lambda, no_source_lines.
  destruct (negb (Z.land (co_flags c) CO_NESTED =? 0)
            || negb (bool_decide (co_freevars c = []))) eqn:En.
  { apply nested_test in En. split; [|split].
    - split; [by intros [u Hu]|]. by intros (Hn & _).
    - intros e [= <-]. left. by eexists.
    - by intros e Hn. }
  apply nested_test_false in En.
  destruct (String.eqb (co_name c) "<lambda>") eqn:El.
  { apply String.eqb_eq in El. split; [|split].
    - split; [by intros [u Hu]|]. by intros (_ & Hl & _).
    - intros e [= <-]. left. by eexists.
    - by intros e _ Hl. }
  apply String.eqb_neq in El.
  destruct (String.eqb (co_filename c) "<string>") eqn:Ef.
  { apply String.eqb_eq in Ef. split; [|split].
    - split; [by intros [u Hu]|]. by intros (_ & _ & Hf & _).
    - intros e [= <-]. left. by eexists.
    - by intros e _ _ Hf. }
  apply String.eqb_neq in Ef.
  destruct (getsourcelines c) as [e0|[lines l]] eqn:Es.
  - split; [|split].
    + split.
      * intros [u Hu]. by destruct (is_IOError e0).
      * by intros (_ & _ & _ & r & Hr).
    + intros e. destruct (is_IOError e0) eqn:Hio; intros [= <-].
      * right. left. split; [done|]. by exists e0.
      * right. right. by split.
    + intros e _ _ _ [= ->] ->. done.
  - split; [|split]; [|done|done].
    split; [|by eexists]. intros _. repeat (split; [done|]). by eexists.
Qed.

(** X2. What [uncompile] returns, field by field: the concatenation of
    the lines read, as text; the code's file name; the mode ['exec'];
    the code's flags restricted to [PyCF_MASK], bit by bit; the first
    line number read; the prefix found in the code's names. So the parse
    [wrap] makes of it is the parse of those lines, at that line, under
    those flags. *)
Theorem uncompile_result (c : code) (u : uncompiled) :
  uncompile c = inr u ->
  exists lines l,
    getsourcelines c = inr (lines, l) /\
    u = {| u_source := SrcText (String.concat EmptyString lines);
           u_filename := co_filename c;
           u_mode := "exec";
           u_flags := Z.land (co_flags c) PyCF_MASK;
           u_firstlineno := l;
           u_privateprefix := find_privateprefix (co_names c) |} /\
    (forall n, 0 <= n ->
       Z.testbit (u_flags u) n
       = Z.testbit (co_flags c) n && Z.testbit PyCF_MASK n) /\
    parse_snippet_unc u
    = parse_snippet (String.concat EmptyString lines) (co_filename c)
                    "exec" (Z.land (co_flags c) PyCF_MASK) l.
Proof.
  unfold uncompile.
  destruct (_ || _); [done|].
  destruct (String.eqb (co_name c) _); [done|].
  destruct (String.eqb (co_filename c) _); [done|].
  destruct (getsourcelines c) as [e|[lines l]];
    [by destruct (is_IOError e)|].
  intros [= <-]. exists lines, l.
  split; [done|]. split; [done|]. split; [|done].
  intros n Hn. cbn [u_flags]. apply Z.land_spec.
Qed.
End uncompile_facts.

Section mangling_facts.

Lemma chars_app (s1 s2 : string) : chars (s1 +:+ s2) = chars s1 ++ chars s2.
Proof.
  unfold chars. induction s1 as [|a s1 IH]; [done|].
  simpl. by rewrite IH.
Qed.

Lemma chars_of_list (l : list ascii) : chars (string_of_list_ascii l) = l.
Proof. apply list_ascii_of_string_of_list_ascii. Qed.

Lemma prefix_group_at_shape (l : list ascii) (k : nat) :
  prefix_group_at l k = true ->
  prefix_shape (take k l) /\
  l = take k l ++ [underscore; underscore] ++ drop (k + 2) l.
Proof.
  unfold prefix_group_at. destruct l as [|u [|a l']]; [done..|].
  rewrite !andb_true_iff.
  intros (((((Hu & Ha) & Hk) & Hw) & Hd) & _).
  apply Ascii.eqb_eq in Hu as ->. apply Nat.leb_le in Hk.
  apply ascii_list_eqb_true in Hd.
  destruct k as [|[|k]]; [lia..|]. split.
  - exists a, (take k l'). cbn in Hw. rewrite Nat.sub_0_r in Hw.
    by repeat split.
  - rewrite <- (take_drop (S (S k)) (underscore :: a :: l')) at 1.
    f_equal.
    rewrite <- (take_drop 2 (drop (S (S k)) (underscore :: a :: l'))) at 1.
    rewrite Hd, drop_drop. repeat f_equal; lia.
Qed.

(** The group found in a name is well formed, and in the name two
    underscores follow it. *)
Lemma match_private_prefix_shape (nm p : string) :
  match_private_prefix nm = Some p ->
  prefix_shape (chars p) /\
  exists rest, chars nm = chars p ++ [underscore; underscore] ++ rest.
Proof.
  unfold match_private_prefix.
  destruct (find _ _) as [k|] eqn:Hf; [|done].
  intros [= <-]. apply find_some in Hf as [_ Hk].
  apply prefix_group_at_shape in Hk as [Hs Hl].
  rewrite chars_of_list. split; [done|]. by eexists.
Qed.

Lemma find_privateprefix_some (names : list string) (p : string) :
  find_privateprefix names = Some p ->
  exists nm, nm ∈ names /\ match_private_prefix nm = Some p.
Proof.
  induction names as [|nm names IH]; [done|]. cbn [find_privateprefix].
  destruct (match_private_prefix nm) as [q|] eqn:Hq.
  - intros [= ->]. exists nm. split; [by left|done].
  - intros Hf. destruct (IH Hf) as (nm' & Hin & Hm).
    exists nm'. split; [by right|done].
Qed.

(** X3. The prefix [uncompile] records comes from one of the names of the
    code: it is an underscore, a letter and word characters, and in that
    name two underscores follow it. *)
Theorem find_privateprefix_shape (names : list string) (p : string) :
  find_privateprefix names = Some p ->
  prefix_shape (chars p) /\
  exists nm rest,
    nm ∈ names /\ chars nm = chars p ++ [underscore; underscore] ++ rest.
Proof.
  intros Hf. apply find_privateprefix_some in Hf as (nm & Hin & Hm).
  apply match_private_prefix_shape in Hm as [Hs [rest Hr]].
  split; [done|]. by exists nm, rest.
Qed.

(** A name with a well-formed prefix before it is not private: its second
    character is a letter. *)
Lemma isprivate_prefixed (p nm : string) :
  prefix_shape (chars p) -> isprivate (p +:+ nm) = false.
Proof.
  intros (a & body & Hp & Ha & _). unfold isprivate.
  rewrite chars_app, Hp. cbn [app take]. rewrite take_0.
  replace (ascii_list_eqb [underscore; a] [underscore; underscore])
    with false; [done|].
  symmetry. apply not_true_iff_false. intros Heq.
  apply ascii_list_eqb_true in Heq. injection Heq as ->. discriminate Ha.
Qed.

Lemma fixnames_twice (p : string) (names : list string) :
  prefix_shape (chars p) ->
  fixnames p (fixnames p names) = fixnames p names.
Proof.
  intros Hp. unfold fixnames. rewrite map_map. apply map_ext.
  intros nm. destruct (isprivate nm) eqn:Hn.
  - by rewrite isprivate_prefixed.
  - by rewrite Hn.
Qed.

(** X4. Mangling the names with a prefix recorded by [uncompile] is
    idempotent: a name that has got the prefix is no longer private, so
    [fixnames] applied to its own result changes nothing. *)
Theorem fixnames_idempotent (recorded names : list string) (p : string) :
  find_privateprefix recorded = Some p ->
  fixnames p (fixnames p names) = fixnames p names.
Proof.
  intros Hf.
  apply find_privateprefix_some in Hf as (nm & _ & Hm).
  apply match_private_prefix_shape in Hm as [Hs _].
  by apply fixnames_twice.
Qed.



End mangling_facts.

Section shifting_facts.
Context `{PyInterp}.

Lemma increment_lineno_add (n m : Z) (a : node) :
  increment_lineno (increment_lineno a n) m = increment_lineno a (n + m).
Proof.
  induction a as [k l b f IHb IHf] using node_ind_nested.
  cbn [increment_lineno n_class n_lineno n_body n_fields]. f_equal.
  - destruct l as [l|]; [|done]. cbn. f_equal. lia.
  - rewrite map_map. by apply map_ext_Forall.
  - rewrite map_map. by apply map_ext_Forall.
Qed.

Lemma increment_lineno_0 (a : node) : increment_lineno a 0 = a.
Proof.
  induction a as [k l b f IHb IHf] using node_ind_nested.
  cbn [increment_lineno n_class n_lineno n_body n_fields]. f_equal.
  - by destruct l.
  - rewrite <- (map_id b) at 2. by apply map_ext_Forall.
  - rewrite <- (map_id f) at 2. by apply map_ext_Forall.
Qed.

(** X6. The starting line enters [parse_snippet] as a shift only: the
    tree of a snippet placed [d] lines further down is the tree of the
    snippet shifted by [d], and an error is the same error. *)
Theorem parse_snippet_moves_with_firstlineno
    (src filename mode : string) (flags firstlineno d : Z) :
  parse_snippet src filename mode flags (firstlineno + d)
  = match parse_snippet src filename mode flags firstlineno with
    | inl e => inl e
    | inr t => inr (increment_lineno t d)
    end.
Proof.
  unfold parse_snippet, mbind, res_bind, mret, res_ret. cbn beta.
  destruct (match compile_source _ _ _ _ _ with
            | inl e => _ | inr a => _ end) as [e|a]; [done|].
  rewrite increment_lineno_add. do 2 f_equal. lia.
Qed.

(** X7. [parse_snippet] returns a tree exactly when the plain parse
    succeeds, or when it raises an indentation error and the parse under
    the dummy [with] yields a tree whose first statement has a body. An
    error of the plain parse that is no indentation error is raised as it
    is, without a second parse. *)
Theorem parse_snippet_returns_iff
    (src filename mode : string) (flags firstlineno : Z) :
  let plain := compile_source (prefix_plain +:+ src) filename mode
                              (Z.lor flags PyCF_ONLY_AST) true in
  let wrapped := compile_source (prefix_with +:+ src) filename mode
                                (Z.lor flags PyCF_ONLY_AST) true in
  ((exists t, parse_snippet src filename mode flags firstlineno = inr t) <->
   (exists a, plain = inr a) \/
   (exists e a w, plain = inl e /\ is_IndentationError e = true /\
                  wrapped = inr a /\ get_body_0 a = inr w /\
                  has_body (n_class w) = true)) /\
  (forall e, plain = inl e -> is_IndentationError e = false ->
             parse_snippet src filename mode flags firstlineno = inl e).
Proof.
  intros plain wrapped. subst plain wrapped.
  unfold parse_snippet, parse_wrapped, mbind, res_bind, mret, res_ret, raise.
  cbn beta.
  destruct (compile_source (prefix_plain +:+ src) _ _ _ _) as [e|a] eqn:Hp.
  - destruct (is_IndentationError e) eqn:Hi.
    + split; [|by intros e' [= <-]; rewrite Hi].
      destruct (compile_source (prefix_with +:+ src) _ _ _ _)
        as [e'|a] eqn:Hw.
      * split; [by intros [t Ht]|].
        intros [[a Ha]|(e0 & a & w & _ & _ & Ha & _)]; done.
      * destruct (get_body_0 a) as [e'|w] eqn:Hb.
        { split; [by intros [t Ht]|].
          intros [[a' Ha]|(e0 & a' & w & _ & _ & [= <-] & Hw' & _)];
            [done|]. by rewrite Hb in Hw'. }
        unfold get_body. destruct (has_body (n_class w)) eqn:Hh.
        { split; [|by eexists]. intros _. right.
          by exists e, a, w. }
        split; [by intros [t Ht]|].
        intros [[a' Ha]|(e0 & a' & w' & _ & _ & [= <-] & Hw' & Hh')];
          [done|].
        rewrite Hb in Hw'. injection Hw' as <-. by rewrite Hh in Hh'.
    + split; [|by intros e' [= <-] _]. split; [by intros [t Ht]|].
      intros [[a Ha]|(e0 & a & w & [= <-] & Hi' & _)]; [done|].
      by rewrite Hi in Hi'.
  - split; [|done]. split; [|by eexists]. intros _. left. by eexists.
Qed.
End shifting_facts.

Section recompile_facts.
Context `{PyInterp}.

(** X8. Whenever [recompile] returns, the tree's first statement is a
    function definition and a code object with the name and the line of
    that definition was found among the constants of the compiled
    module. Without a prefix that code object is the one returned; with
    a prefix the one returned is what the [code] constructor made of its
    fourteen arguments. *)
Theorem recompile_result_named
    (src : source) (filename mode : string) (flags firstlineno : Z)
    (privateprefix : option string) (c : code) :
  recompile src filename mode flags firstlineno privateprefix = inr c ->
  exists a n0 c0 cb,
    source_tree src filename mode flags firstlineno = inr a /\
    get_body_0 a = inr n0 /\
    isinstance_FunctionDef n0 = true /\
    compile_ast a filename mode flags true = inr c0 /\
    ConstCode cb ∈ co_consts c0 /\
    co_name cb = n_name n0 /\
    Some (co_firstlineno cb) = n_lineno n0 /\
    match privateprefix with
    | None => c = cb
    | Some p => CodeType (code_args p cb) = inr c
    end.
Proof.
  unfold recompile, mbind, res_bind, mret, res_ret. cbn beta.
  destruct (source_tree _ _ _ _ _) as [e|a] eqn:Ha; [done|].
  destruct (get_body_0 a) as [e|n0] eqn:Hb; [done|].
  destruct (isinstance_FunctionDef n0) eqn:Hi; [|done]. cbn [negb].
  destruct (compile_ast _ _ _ _ _) as [e|c0] eqn:Hc0; [done|].
  destruct (find_body_code _ _ _) as [e|cb] eqn:Hf; [done|].
  apply find_body_code_some in Hf as (Hin & Hn & Hl).
  intros Hc. exists a, n0, c0, cb. repeat (split; [done|]).
  destruct privateprefix as [p|]; [done|]. by injection Hc.
Qed.

(** X9. Among the constants of the compiled module the first code object
    with the name and the line wins: the ones before it that do not match
    are passed over, and what follows it is not looked at. *)
Theorem find_body_code_first
    (nm : string) (l : Z) (pre post : list const) (c : code) :
  co_name c = nm -> co_firstlineno c = l ->
  (forall c', ConstCode c' ∈ pre ->
              ~ (co_name c' = nm /\ co_firstlineno c' = l)) ->
  find_body_code nm (Some l) (pre ++ ConstCode c :: post) = inr c.
Proof.
  intros Hn Hl. induction pre as [|k pre IH]; intros Hpre.
  - cbn [app find_body_code].
    apply String.eqb_eq in Hn. apply Z.eqb_eq in Hl. by rewrite Hn, Hl.
  - assert (Hrest : forall c', ConstCode c' ∈ pre ->
                               ~ (co_name c' = nm /\ co_firstlineno c' = l)).
    { intros c' Hc'. apply Hpre. by right. }
    destruct k as [c'|o]; cbn [app find_body_code]; [|by apply IH].
    destruct (String.eqb (co_name c') nm) eqn:En; [|by apply IH].
    destruct (co_firstlineno c' =? l) eqn:El; [|by apply IH].
    exfalso. apply (Hpre c'); [by left|].
    split; [by apply String.eqb_eq | by apply Z.eqb_eq].
Qed.

(** X10. A tree without a first statement gets no code object and not the
    error of [recompile] either: on a module with an empty body the
    subscript raises [IndexError], and on a root node without a [body]
    attribute the attribute access raises [AttributeError]. *)
Theorem recompile_without_statement
    (a : node) (filename mode : string) (flags firstlineno : Z)
    (privateprefix : option string) :
  (has_body (n_class a) = true -> n_body a = [] ->
   recompile (SrcAST a) filename mode flags firstlineno privateprefix
   = inl IndexError) /\
  (has_body (n_class a) = false ->
   recompile (SrcAST a) filename mode flags firstlineno privateprefix
   = inl (AttributeError "body")).
Proof.
  unfold recompile, source_tree, get_body_0, get_body, mbind, res_bind,
    mret, res_ret, raise.
  cbn beta. split.
  - by intros -> ->.
  - by intros ->.
Qed.
End recompile_facts.

(** * Further properties of [_model.py] *)

Section observe_facts.
Context `{Backend} `{!Interp}.

Lemma observations_of_some (w : World) (self : loc)
    (old : gmap string Value) :
  observations_of w self = Some old ->
  exists m, models w !! self = Some m /\ dicts w !! _observations m = Some old.
Proof.
  unfold observations_of. destruct (models w !! self) as [m|]; [|done].
  intros Hd. by exists m.
Qed.

(** X11. [observe] touches nothing but the model store and the one
    dictionary: the template function is not called, contexts, stack and
    functions are as before, the models already there keep their place
    (the copy is added after them), and every other dictionary is as it
    was. *)
Theorem observe_frame (w : World) (self : loc) (kwargs : gmap string Value)
    (m : Model) (old : gmap string Value) :
  models w !! self = Some m ->
  dicts w !! _observations m = Some old ->
  let w' := (observe self kwargs w).2 in
  calls w' = calls w /\ ambient w' = ambient w /\
  functions w' = functions w /\
  models w' = models w ++ [m] /\
  length (dicts w') = length (dicts w) /\
  (forall d, d ≠ _observations m -> dicts w' !! d = dicts w !! d).
Proof.
  intros Hm Hd w'. subst w'. rewrite (observe_run _ _ _ _ _ Hm Hd).
  cbn [snd calls ambient functions models dicts set_dicts set_models].
  repeat (split; [done|]). split; [by rewrite length_insert|].
  intros d Hne. by rewrite list_lookup_insert_ne.
Qed.

(** X12. Observations pile up in the one dictionary: after
    [self.observe(kw1)] and then [observe(kw2)] on the copy, the
    original, the first copy and the second copy all read the old map
    extended by [kw1] and then by [kw2], a later key replacing an earlier
    one. *)
Theorem observe_accumulates (w : World) (self : loc)
    (kw1 kw2 old : gmap string Value) :
  observations_of w self = Some old ->
  exists c1 w1 c2 w2,
    observe self kw1 w = (inr c1, w1) /\
    observe c1 kw2 w1 = (inr c2, w2) /\
    observations_of w2 self = Some (kw2 ∪ (kw1 ∪ old)) /\
    observations_of w2 c1 = Some (kw2 ∪ (kw1 ∪ old)) /\
    observations_of w2 c2 = Some (kw2 ∪ (kw1 ∪ old)).
Proof.
  intros Ho. apply observations_of_some in Ho as (m & Hm & Hd).
  pose proof (observe_run w self kw1 m old Hm Hd) as H1.
  set (w1 := set_dicts (<[_observations m := kw1 ∪ old]> (dicts w))
                       (set_models (models w ++ [m]) w)) in *.
  assert (Hm1 : models w1 !! length (models w) = Some m)
    by apply lookup_alloc_new.
  assert (Hlt : (_observations m < length (dicts w))%nat)
    by (by apply lookup_lt_Some in Hd).
  assert (Hd1 : dicts w1 !! _observations m = Some (kw1 ∪ old))
    by (by apply list_lookup_insert_eq).
  pose proof (observe_run w1 (length (models w)) kw2 m _ Hm1 Hd1) as H2.
  eexists _, _, _, _. split; [exact H1|]. split; [exact H2|].
  unfold observations_of.
  cbn [models dicts set_dicts set_models w1].
  assert (Hself : ((models w ++ [m]) ++ [m]) !! self = Some m)
    by (by do 2 apply lookup_alloc_old).
  assert (Hc1 : ((models w ++ [m]) ++ [m]) !! length (models w) = Some m)
    by (apply lookup_alloc_old, lookup_alloc_new).
  assert (Hc2 : ((models w ++ [m]) ++ [m]) !! length (models w ++ [m])
                = Some m) by apply lookup_alloc_new.
  rewrite Hself, Hc1, Hc2. cbn [mbind option_bind].
  rewrite list_lookup_insert_eq by (by rewrite length_insert).
  done.
Qed.

(** X13. [observe()] without keyword leaves every observation map as it
    is: the call only adds the copy of the model. *)
Theorem observe_nothing (w : World) (self : loc) (m : Model)
    (old : gmap string Value) :
  models w !! self = Some m ->
  dicts w !! _observations m = Some old ->
  observe self ∅ w
  = (inr (length (models w)), set_models (models w ++ [m]) w).
Proof.
  intros Hm Hd. rewrite (observe_run _ _ _ _ _ Hm Hd).
  rewrite map_empty_union, list_insert_id by done.
  by destruct w.
Qed.
End observe_facts.

Section engine_facts.
Context `{Backend} `{!Interp}.

(** The log-probability function reads the store through the functions,
    the contexts and the model it is called for, and through nothing
    else. *)
Lemma log_prob_reads (w1 w2 : World) (a b : loc) (args : list Value) :
  functions w1 = functions w2 -> ambient w1 = ambient w2 ->
  models w1 !! a = models w2 !! b ->
  (make_log_prob_function a args w1).1
  = (make_log_prob_function b args w2).1 /\
  ambient (make_log_prob_function a args w1).2
  = ambient (make_log_prob_function b args w2).2.
Proof.
  destruct w1 as [fs1 [cs1 st1] ds1 ms1 cl1].
  destruct w2 as [fs2 [cs2 st2] ds2 ms2 cl2].
  cbn. intros -> [= -> ->] Hm.
  destruct (ms2 !! b) as [m|] eqn:Hb.
  2:{ unfold make_log_prob_function, log_prob_, get_model. run_M. simpl.
      rewrite Hm, Hb. by run_M. }
  unfold make_log_prob_function, log_prob_, InferenceContext_new, with_,
    enter, exit_, _evaluate, new_context, get_model, get_function,
    get_context, call.
  run_M. simpl. rewrite Hm, Hb. run_M. simpl.
  destruct (cs2 !! _forward_context m) as [fc|]; run_M; simpl; [|done].
  destruct (bool_decide _); run_M; simpl; [|done].
  rewrite Hm, Hb. run_M. simpl.
  destruct (_template_args m) as [targs tkwargs]. run_M. simpl.
  destruct (fs2 !! _func (_template m)) as [c|]; run_M; simpl; [|done].
  destruct (call_function c targs tkwargs _) as [[e|[]] a1];
    run_M; simpl; [done|].
  destruct (contexts a1 !! length cs2); by simpl.
Qed.

Lemma forward_sample_reads (w1 w2 : World) (a b : loc) (args : list Value)
    (kwargs : gmap string Value) :
  ambient w1 = ambient w2 ->
  models w1 !! a = models w2 !! b ->
  (forward_sample a args kwargs w1).1 = (forward_sample b args kwargs w2).1.
Proof.
  destruct w1 as [fs1 [cs1 st1] ds1 ms1 cl1].
  destruct w2 as [fs2 [cs2 st2] ds2 ms2 cl2].
  cbn. intros [= -> ->] Hm.
  unfold forward_sample, with_, enter, exit_, get_model, get_context.
  run_M. simpl. rewrite Hm.
  destruct (ms2 !! b) as [m|]; run_M; simpl; [|done].
  destruct (cs2 !! _forward_context m); by run_M.
Qed.

(** X14. Observations are not consulted when the model is evaluated: after
    [observe], the log-probability function and [forward_sample] give,
    for the copy and for the original alike, the results they gave for
    the original before. *)
Theorem observe_keeps_results (w : World) (self : loc)
    (kwargs : gmap string Value) (m : Model) (old : gmap string Value)
    (args : list Value) (fargs : list Value)
    (fkwargs : gmap string Value) :
  models w !! self = Some m ->
  dicts w !! _observations m = Some old ->
  exists copy w',
    observe self kwargs w = (inr copy, w') /\
    (make_log_prob_function copy args w').1
    = (make_log_prob_function self args w).1 /\
    (make_log_prob_function self args w').1
    = (make_log_prob_function self args w).1 /\
    (forward_sample copy fargs fkwargs w').1
    = (forward_sample self fargs fkwargs w).1 /\
    (forward_sample self fargs fkwargs w').1
    = (forward_sample self fargs fkwargs w).1.
Proof.
  intros Hm Hd. eexists _, _. split; [by apply observe_run|].
  set (w' := set_dicts _ _).
  assert (Hcopy : models w' !! length (models w) = models w !! self).
  { rewrite Hm. apply lookup_alloc_new. }
  assert (Hself : models w' !! self = models w !! self).
  { rewrite Hm. by apply lookup_alloc_old. }
  split; [by apply log_prob_reads|]. split; [by apply log_prob_reads|].
  split; by apply forward_sample_reads.
Qed.

(** What [configure] does to the stores of models and dictionaries does
    not depend on the template function. *)
Lemma configure_allocates (w : World) (self : ModelTemplate)
    (args : list Value) (kwargs : gmap string Value) :
  models (configure self args kwargs w).2
  = models w ++ [{| _template := self; _template_args := (args, kwargs);
                    _forward_context := length (contexts (ambient w));
                    _observations := length (dicts w) |}] /\
  dicts (configure self args kwargs w).2 = dicts w ++ [∅] /\
  functions (configure self args kwargs w).2 = functions w /\
  (forall m, (configure self args kwargs w).1 = inr m ->
             m = length (models w)).
Proof.
  destruct w as [fs [cs st] ds ms cls].
  unfold configure, ForwardContext_new, with_, enter, exit_, Model_new,
    _evaluate, new_context, new_dict, new_model, get_model, get_function,
    call.
  run_M. simpl.
  rewrite (proj2 (lookup_alloc_new ms _)). run_M. simpl.
  destruct (fs !! _func self) as [c|]; run_M; simpl; [|done].
  destruct (call_function c args kwargs _) as [[e|[]] a1]; simpl;
    repeat split; try done.
  by intros m [= <-].
Qed.

(** The store [configure] leaves, when the function of the template is
    there. *)
Lemma configure_run (w : World) (self : ModelTemplate) (args : list Value)
    (kwargs : gmap string Value) (c : code) :
  functions w !! _func self = Some c ->
  let cl := length (contexts (ambient w)) in
  let out := call_function c args kwargs
               {| contexts := contexts (ambient w) ++ [ForwardContext []];
                  stack := cl :: stack (ambient w) |} in
  configure self args kwargs w
  = (match out.1 with inl e => inl e | inr _ => inr (length (models w)) end,
     {| functions := functions w;
        ambient := set_stack (tail (stack out.2)) out.2;
        dicts := dicts w ++ [∅];
        models := models w ++ [{| _template := self;
                                  _template_args := (args, kwargs);
                                  _forward_context := cl;
                                  _observations := length (dicts w) |}];
        calls := calls w ++ [{| call_code := c; call_args := args;
                                call_kwargs := kwargs;
                                call_stack := cl :: stack (ambient w) |}] |}).
Proof.
  intros Hc cl out. subst out cl. destruct w as [fs [cs st] ds ms cls].
  unfold configure, ForwardContext_new, with_, enter, exit_, Model_new,
    _evaluate, new_context, new_dict, new_model, get_model, get_function,
    call.
  run_M. simpl in *.
  rewrite (proj2 (lookup_alloc_new ms _)). run_M. simpl.
  rewrite Hc. run_M. simpl.
  destruct (call_function c args kwargs _) as [[e|[]] a1]; by simpl.
Qed.
End engine_facts.

Section composition_facts.
Context `{Backend} `{!Interp} `{PyInterp} `{AstTools}.

(** X15. Two models configured one after the other, from the same
    template or not, are distinct objects with an observation dictionary
    each, both empty; observing the first changes what the first reads
    and not what the second reads. *)
Theorem configured_models_keep_apart
    (w w1 w2 : World) (t1 t2 : ModelTemplate) (args1 args2 : list Value)
    (kw1 kw2 kwargs : gmap string Value) (m1 m2 : loc) :
  configure t1 args1 kw1 w = (inr m1, w1) ->
  configure t2 args2 kw2 w1 = (inr m2, w2) ->
  exists copy w3,
    observe m1 kwargs w2 = (inr copy, w3) /\
    m1 ≠ m2 /\
    observations_of w2 m1 = Some ∅ /\ observations_of w2 m2 = Some ∅ /\
    observations_of w3 m1 = Some kwargs /\ observations_of w3 m2 = Some ∅.
Proof.
  intros Hcf1 Hcf2.
  destruct (configure_allocates w t1 args1 kw1) as (Hms1 & Hds1 & _ & Hr1).
  destruct (configure_allocates w1 t2 args2 kw2) as (Hms2 & Hds2 & _ & Hr2).
  rewrite Hcf1 in Hms1, Hds1, Hr1. rewrite Hcf2 in Hms2, Hds2, Hr2.
  cbn [fst snd] in *.
  rewrite (Hr1 m1 eq_refl), (Hr2 m2 eq_refl). rewrite Hms1, Hds1 in *.
  set (M1 := {| _template := t1; _template_args := (args1, kw1);
                _forward_context := length (contexts (ambient w));
                _observations := length (dicts w) |}) in *.
  set (M2 := {| _template := t2; _template_args := (args2, kw2);
                _forward_context := length (contexts (ambient w1));
                _observations := length (dicts w ++ [∅]) |}) in *.
  assert (Hm1 : models w2 !! length (models w) = Some M1).
  { rewrite Hms2. apply lookup_alloc_old, lookup_alloc_new. }
  assert (Hm2 : models w2 !! length (models w ++ [M1]) = Some M2).
  { rewrite Hms2. apply lookup_alloc_new. }
  assert (Hd1 : dicts w2 !! length (dicts w) = Some ∅).
  { rewrite Hds2. apply lookup_alloc_old, lookup_alloc_new. }
  assert (Hd2 : dicts w2 !! length (dicts w ++ [∅]) = Some ∅).
  { rewrite Hds2. apply lookup_alloc_new. }
  eexists _, _. split; [exact (observe_run w2 _ kwargs M1 ∅ Hm1 Hd1)|].
  split; [rewrite length_app; cbn; lia|].
  unfold observations_of.
  cbn [models dicts set_dicts set_models].
  rewrite (lookup_alloc_old _ M1 _ _ Hm1), (lookup_alloc_old _ M1 _ _ Hm2).
  rewrite Hm1, Hm2. cbn [mbind option_bind _observations M1 M2].
  rewrite Hd1, Hd2. repeat (split; [done|]).
  rewrite map_union_empty. split.
  - apply list_lookup_insert_eq. by apply lookup_lt_Some in Hd1.
  - rewrite list_lookup_insert_ne; [done|]. rewrite length_app. cbn. lia.
Qed.

(** X16. The contexts are scoped: when the template function leaves the
    stack of contexts as it finds it, so do [configure], the
    log-probability function and [forward_sample], whether they return or
    raise. *)
Theorem contexts_are_scoped (w : World) :
  keeps_stack ->
  (forall self args kwargs,
     stack (ambient (configure self args kwargs w).2) = stack (ambient w)) /\
  (forall self args,
     stack (ambient (make_log_prob_function self args w).2)
     = stack (ambient w)) /\
  (forall self args kwargs,
     stack (ambient (forward_sample self args kwargs w).2)
     = stack (ambient w)).
Proof.
  intros Hk. destruct w as [fs [cs st] ds ms cls]. split; [|split].
  - intros self args kwargs.
    unfold configure, ForwardContext_new, with_, enter, exit_, Model_new,
      _evaluate, new_context, new_dict, new_model, get_model, get_function,
      call.
    run_M. simpl.
    rewrite (proj2 (lookup_alloc_new ms _)). run_M. simpl.
    destruct (fs !! _func self) as [c|]; run_M; simpl; [|done].
    match goal with
    | |- context [call_function c args kwargs ?a] =>
        pose proof (Hk c args kwargs a) as Hs;
        destruct (call_function c args kwargs a) as [[e|[]] a1]
    end; simpl in *; by rewrite Hs.
  - intros self args.
    unfold make_log_prob_function, log_prob_, InferenceContext_new, with_,
      enter, exit_, _evaluate, new_context, get_model, get_function,
      get_context, call.
    run_M. simpl.
    destruct (ms !! self) as [m|] eqn:Hm; run_M; simpl; [|done].
    destruct (cs !! _forward_context m) as [fc|]; run_M; simpl; [|done].
    destruct (bool_decide _); run_M; simpl; [|done].
    rewrite Hm. run_M. simpl.
    destruct (_template_args m) as [targs tkwargs]. run_M. simpl.
    destruct (fs !! _func (_template m)) as [c|]; run_M; simpl; [|done].
    match goal with
    | |- context [call_function c targs tkwargs ?a] =>
        pose proof (Hk c targs tkwargs a) as Hs;
        destruct (call_function c targs tkwargs a) as [[e|[]] a1]
    end; run_M; simpl in *; [by rewrite Hs|].
    destruct (contexts a1 !! length cs); simpl; by rewrite Hs.
  - intros self args kwargs.
    unfold forward_sample, with_, enter, exit_, get_model, get_context.
    run_M. simpl.
    destruct (ms !! self) as [m|]; run_M; simpl; [|done].
    destruct (cs !! _forward_context m); by simpl.
Qed.

Lemma samples_fold_dom (vs : list RandomVariable) (d : gmap string Value) :
  dom (fold_left (fun d var => <[name var := as_tensor var]> d) vs d)
  = dom d ∪ list_to_set (name <$> vs).
Proof.
  revert d. induction vs as [|v vs IH]; intros d.
  - cbn. by rewrite union_empty_r_L.
  - cbn [fold_left]. rewrite IH, dom_insert_L, fmap_cons.
    cbn [list_to_set].
    by rewrite (comm_L (∪) {[name v]} (dom d)), (assoc_L (∪)).
Qed.

(** X17. The keys of the dictionary [forward_sample] builds are exactly
    the names of the captured variables; a context that captured nothing
    gives the empty dictionary. *)
Theorem samples_of_keys (vs : list RandomVariable) :
  dom (samples_of vs) = list_to_set (name <$> vs) /\
  (vs = [] -> samples_of vs = ∅).
Proof.
  split; [|by intros ->].
  unfold samples_of. by rewrite samples_fold_dom, dom_empty_L, union_empty_l_L.
Qed.

Lemma forward_sample_run (w : World) (self : loc) (args : list Value)
    (kwargs : gmap string Value) (m : Model) (fc : Context) :
  models w !! self = Some m ->
  contexts (ambient w) !! _forward_context m = Some fc ->
  forward_sample self args kwargs w = (inr (samples_of (vars fc)), w).
Proof.
  intros Hm Hfc.
  unfold forward_sample, with_, enter, get_model, get_context. run_M.
  rewrite Hm. run_M. store_simpl.
  rewrite Hfc. run_M. f_equal. apply (exit_enter w).
Qed.

(** X18. Forward sampling the model [configure] has just returned gives
    the variables the template function registered during [configure]:
    the dictionary built from the context as the call left it. *)
Theorem configure_then_forward_sample
    (w : World) (self : ModelTemplate) (args : list Value)
    (kwargs : gmap string Value) (c : code) (ctx : Context) :
  functions w !! _func self = Some c ->
  let cl := length (contexts (ambient w)) in
  let out := call_function c args kwargs
               {| contexts := contexts (ambient w) ++ [ForwardContext []];
                  stack := cl :: stack (ambient w) |} in
  out.1 = inr tt ->
  contexts out.2 !! cl = Some ctx ->
  exists m w',
    configure self args kwargs w = (inr m, w') /\
    forall fargs fkwargs,
      forward_sample m fargs fkwargs w' = (inr (samples_of (vars ctx)), w').
Proof.
  intros Hc cl out Hout Hctx.
  pose proof (configure_run w self args kwargs c Hc) as Hrun.
  cbn zeta in Hrun. fold cl in Hrun. fold out in Hrun.
  rewrite Hout in Hrun. eexists _, _. split; [exact Hrun|].
  intros fargs fkwargs. eapply forward_sample_run.
  - cbn [models]. apply lookup_alloc_new.
  - cbn [ambient contexts set_stack _forward_context]. exact Hctx.
Qed.

(** X19. A template made with [auto_name=True] runs the rewritten code:
    the call [configure] makes is a call of the code the pipeline gave.
    A template made without it runs the code the function had. *)
Theorem decorated_template_runs
    (w : World) (func : loc) (c c' : code) (args : list Value)
    (kwargs : gmap string Value) :
  functions w !! func = Some c ->
  auto_name_code c = inr c' ->
  let called (b : bool) :=
    match model b func w with
    | (inr t, w1) => call_code <$> calls (configure t args kwargs w1).2
    | (inl _, _) => []
    end in
  called true = (call_code <$> calls w) ++ [c'] /\
  called false = (call_code <$> calls w) ++ [c].
Proof.
  intros Hc Hp called. subst called. cbn beta. unfold model. split.
  - rewrite (wrap_pipeline_success _ _ _ _ Hc Hp).
    assert (Hc' : functions (set_functions (<[func := c']> (functions w)) w)
                    !! _func {| _func := func |} = Some c').
    { cbn. apply list_lookup_insert_eq. by apply lookup_lt_Some in Hc. }
    rewrite (configure_run _ _ args kwargs c' Hc'). cbn [snd calls].
    by rewrite fmap_app.
  - cbn [wrap]. unfold wrap. run_M.
    rewrite (configure_run w {| _func := func |} args kwargs c Hc).
    cbn [snd calls]. by rewrite fmap_app.
Qed.
End composition_facts.

(** * The theorems at work on the small runtime *)

#[local] Existing Instance Demo.backend.
#[local] Existing Instance Demo.interpreter.
#[local] Existing Instance Demo.interp.
#[local] Existing Instance Demo.tools.

(** An indented snippet starting at line 10 of its file: the plain parse
    fails, the wrapped one gives the definition at lines 10 and 11. *)
Lemma parse_snippet_shifts_and_peels_witness :
  exists t,
    parse_snippet "    def f():" "model.py" "exec" 0 10 = inr t /\
    n_class t = Module /\
    linenos t = [10; 11].
Proof.
  destruct (parse_snippet_shifts_and_peels
              "    def f():" "model.py" "exec" 0 10) as (_ & _ & _ & Hw).
  destruct (Hw (IndentationError "unexpected indent")
               (Demo.module_of
                  [{| n_class := With; n_lineno := Some 1;
                      n_body := [Demo.def_f 2];
                      n_fields := [Demo.leaf 1] |}])
               {| n_class := With; n_lineno := Some 1;
                  n_body := [Demo.def_f 2];
                  n_fields := [Demo.leaf 1] |}
               eq_refl eq_refl eq_refl eq_refl eq_refl)
    as (t & Ht & Hc & _ & Hl).
  exists t. split; [exact Ht|]. split; [exact Hc|]. exact Hl.
Defined.

(** A decorated function: its body code starts one line above the [def],
    so no constant has both the name and the line of the definition. *)
Lemma recompile_fails_explicitly_witness :
  source_tree (SrcAST (Demo.module_of [Demo.def_f 5]))
              "decorated.py" "exec" 0 5
  = inr (Demo.module_of [Demo.def_f 5]) /\
  get_body_0 (Demo.module_of [Demo.def_f 5]) = inr (Demo.def_f 5) /\
  recompile (SrcAST (Demo.module_of [Demo.def_f 5]))
            "decorated.py" "exec" 0 5 None
  = inl (Error "Function body code not found").
Proof.
  split; [reflexivity|]. split; [reflexivity|].
  destruct (recompile_fails_explicitly
              (SrcAST (Demo.module_of [Demo.def_f 5]))
              "decorated.py" "exec" 0 5 None
              (Demo.module_of [Demo.def_f 5]) (Demo.def_f 5)
              eq_refl eq_refl) as [_ Hw].
  apply (Hw (Demo.mk_code "<module>" "decorated.py" 1 64
               [ConstObject "f";
                ConstCode (Demo.body_code "f" "decorated.py" 4)]
               [] [] [])
            5 eq_refl eq_refl eq_refl).
  intros c Hc [_ Hl].
  apply elem_of_cons in Hc as [Hc|Hc]; [discriminate Hc|].
  apply elem_of_cons in Hc as [Hc|Hc]; [|by apply elem_of_nil in Hc].
  injection Hc as ->. discriminate Hl.
Defined.

(** A method body that refers to [__init__] and [__x], recompiled for a
    class [Cls]: the call of the constructor raises. *)
Lemma recompile_with_prefix_raises_witness :
  recompile (SrcText "def f(): pass") "model.py" "exec" 0 10 None
  = inr (Demo.body_code "f" "model.py" 10) /\
  recompile (SrcText "def f(): pass") "model.py" "exec" 0 10 (Some "_Cls")
  = inl (PyException "TypeError") /\
  code_args "_Cls" (Demo.body_code "f" "model.py" 10) !! 6%nat
  = Some (ArgNames ["rv"; "__init__"; "_Cls__x"]).
Proof.
  assert (Hr : recompile (SrcText "def f(): pass") "model.py" "exec" 0 10
                         None
               = inr (Demo.body_code "f" "model.py" 10)) by reflexivity.
  split; [exact Hr|].
  destruct (recompile_with_prefix_raises (SrcText "def f(): pass")
              "model.py" "exec" 0 10 "_Cls") as [_ Hw].
  destruct (Hw _ Hr) as (He & Hn & _).
  split; [exact He|]. apply Hn. repeat constructor.
Defined.

(** Configuring the example template: one call, under the new context
    [0], and model [0] is returned. *)
Lemma configure_evaluates_once_witness :
  functions Demo.world0 !! _func Demo.template = Some Demo.f_code /\
  (configure Demo.template [] ∅ Demo.world0).1 = inr 0%nat /\
  calls (configure Demo.template [] ∅ Demo.world0).2
  = [{| call_code := Demo.f_code; call_args := []; call_kwargs := ∅;
        call_stack := [0%nat] |}] /\
  contexts (ambient (configure Demo.template [] ∅ Demo.world0).2)
    !! 0%nat
  = Some (ForwardContext [Demo.rv "a" 1; Demo.rv "b" 1]).
Proof.
  assert (Hf : functions Demo.world0 !! _func Demo.template
               = Some Demo.f_code) by reflexivity.
  split; [exact Hf|].
  destruct (configure_evaluates_once Demo.world0 Demo.template [] ∅
              Demo.f_code Hf) as (_ & Hr & _ & _ & Hc & _ & Hx & _).
  split; [exact Hr|]. split; [exact Hc|]. exact Hx.
Defined.

Lemma world1_model : models Demo.world1 !! 0%nat = Some Demo.model0.
Proof. reflexivity. Qed.

Lemma world1_forward :
  contexts (ambient Demo.world1) !! _forward_context Demo.model0
  = Some Demo.forward0.
Proof. reflexivity. Qed.


(** Three values for the two variables of the forward context. *)
Lemma InferenceContext_rejects_mismatch_witness :
  length [2; 5; 7] ≠ length (variables_of Demo.forward0) /\
  InferenceContext_new [2; 5; 7] (variables_of Demo.forward0) Demo.world1
  = (inl ContextMismatch, Demo.world1).
Proof.
  assert (Hlen : length [2; 5; 7] ≠ length (variables_of Demo.forward0))
    by (cbn; lia).
  split; [exact Hlen|].
  exact (InferenceContext_rejects_mismatch Demo.world1 [2; 5; 7]
           (variables_of Demo.forward0) Hlen).
Defined.

(** The log-probability of the example model at [(2, 5)]: the variables
    are bound to [2] and [5], and [-4 + -25] is returned. *)
Lemma log_prob_sums_captured_witness :
  models Demo.world1 !! 0%nat = Some Demo.model0 /\
  contexts (ambient Demo.world1) !! _forward_context Demo.model0
  = Some Demo.forward0 /\
  functions Demo.world1 !! _func (_template Demo.model0)
  = Some Demo.f_code /\
  length [2; 5] = length (vars Demo.forward0) /\
  (make_log_prob_function 0%nat [2; 5] Demo.world1).1 = inr (-29) /\
  length (calls (make_log_prob_function 0%nat [2; 5] Demo.world1).2)
  = 2%nat.
Proof.
  assert (Hf : functions Demo.world1 !! _func (_template Demo.model0)
               = Some Demo.f_code) by reflexivity.
  assert (Hlen : length [2; 5] = length (vars Demo.forward0)) by reflexivity.
  split; [exact world1_model|]. split; [exact world1_forward|].
  split; [exact Hf|]. split; [exact Hlen|].
  destruct (log_prob_sums_captured Demo.world1 0%nat [2; 5] Demo.model0
              Demo.forward0 Demo.f_code world1_model world1_forward
              Hf Hlen)
    as (_ & Hr & Hc & _).
  split; [exact Hr|]. rewrite Hc. reflexivity.
Defined.

(** C2 with a name list fails on the example model: the context the call
    opens expects the two variable objects of the forward context, and a
    list of variables is not the list of their names. *)
Lemma log_prob_expects_variables_not_names :
  ~ expects_names Demo.world1 0%nat [2; 5].
Proof.
  intros Hx.
  destruct (Hx Demo.model0 Demo.forward0 world1_model world1_forward)
    as (c & Hc & He).
  vm_compute in Hc. injection Hc as <-. vm_compute in He. discriminate He.
Qed.

(** C1. [observe] does not keep the original's observation map as it
    was: it copies the model object only, so the copy and the original
    refer to one observation dictionary, and updating it through the copy
    changes what the original reads. On the configured example model, whose
    observation map is empty, [observe(y=1)] returns a distinct model, and
    afterwards the original's observation map holds [y]. *)
Theorem observe_alters_original :
  exists w' copy,
    observe 0%nat {[ "y" := 1 ]} Demo.world1 = (inr copy, w') /\
    copy ≠ 0%nat /\
    models w' !! 0%nat = Some Demo.model0 /\
    models w' !! copy = Some Demo.model0 /\
    dicts Demo.world1 !! _observations Demo.model0 = Some ∅ /\
    dicts w' !! _observations Demo.model0 = Some {[ "y" := 1 ]}.
Proof.
  assert (Hd : dicts Demo.world1 !! _observations Demo.model0 = Some ∅)
    by reflexivity.
  destruct (observe_shares_observations Demo.world1 0%nat {[ "y" := 1 ]}
              Demo.model0 ∅ world1_model Hd)
    as (w' & copy & Hr & Hne & Hm & Hm' & Hd').
  exists w', copy. rewrite map_union_empty in Hd'. done.
Qed.

(** The decorator rejects the example lambda, the example closure and the
    function whose file is gone, and leaves them as they are. *)
Lemma wrap_rejects_unsupported_witness :
  functions Demo.world0 !! 1%nat = Some Demo.lambda_code /\
  is_lambda Demo.lambda_code /\
  exists msg,
    model true 1%nat Demo.world0 = (inl (Unsupported msg), Demo.world0).
Proof.
  assert (Hf : functions Demo.world0 !! 1%nat = Some Demo.lambda_code)
    by reflexivity.
  assert (Hl : is_lambda Demo.lambda_code) by reflexivity.
  split; [exact Hf|]. split; [exact Hl|].
  destruct (wrap_rejects_unsupported Demo.world0 1%nat
              Demo.lambda_code Hf) as (Hw & _).
  apply Hw. right. left. exact Hl.
Defined.

Lemma f_code_supported :
  ~ is_nested Demo.f_code /\ ~ is_lambda Demo.f_code
  /\ co_filename Demo.f_code ≠ "<string>".
Proof.
  split; [|split].
  - intros [Hx|Hx]; by apply Hx.
  - intros Hx. discriminate Hx.
  - intros Hx. discriminate Hx.
Qed.

(** The decorator rewrites the example function in place, with the naming
    visitor: the code stored has the string constant of the keyword
    argument, which the code of the function did not have. *)
Lemma wrap_patches_function_witness :
  functions Demo.world0 !! 0%nat = Some Demo.f_code /\
  getsourcelines Demo.f_code
  = inr (["def f():" +:+ str_newline; "    a = rv(0)" +:+ str_newline],
         10) /\
  (model (H2 := Demo.naming_tools) true 0%nat Demo.world0).1
  = inr {| _func := 0%nat |} /\
  functions (model (H2 := Demo.naming_tools) true 0%nat Demo.world0).2
    !! 0%nat
  = Some (Demo.body_code_with [ConstObject "a"] "f" "model.py" 10) /\
  co_consts Demo.f_code = [].
Proof.
  assert (Hf : functions Demo.world0 !! 0%nat = Some Demo.f_code)
    by reflexivity.
  assert (Hs : getsourcelines Demo.f_code
               = inr (["def f():" +:+ str_newline;
                       "    a = rv(0)" +:+ str_newline], 10))
    by reflexivity.
  destruct f_code_supported as (Hn & Hl & Hfile).
  assert (Ht : parse_snippet
                 (String.concat EmptyString
                    ["def f():" +:+ str_newline;
                     "    a = rv(0)" +:+ str_newline])
                 (co_filename Demo.f_code) "exec"
                 (Z.land (co_flags Demo.f_code) PyCF_MASK) 10
               = inr (Demo.module_of [Demo.def_f 10])) by reflexivity.
  assert (Hv : AutoNameTransformer_visit (AstTools := Demo.naming_tools)
                 (Demo.module_of [Demo.def_f 10])
               = inr (Demo.in_functions Demo.add_keyword
                        (Demo.module_of [Demo.def_f 10]))) by reflexivity.
  assert (Hr : recompile
                 (SrcAST (fix_missing_locations
                            (AstTools := Demo.naming_tools)
                            (Demo.in_functions Demo.add_keyword
                               (Demo.module_of [Demo.def_f 10]))))
                 (co_filename Demo.f_code) "exec"
                 (Z.land (co_flags Demo.f_code) PyCF_MASK) 10
                 (find_privateprefix (co_names Demo.f_code))
               = inr (Demo.body_code_with [ConstObject "a"] "f"
                                          "model.py" 10)) by reflexivity.
  split; [exact Hf|]. split; [exact Hs|].
  destruct (wrap_patches_function (H1 := Demo.naming_tools) Demo.world0
              0%nat Demo.f_code _ _ _ _ _ Hf Hn Hl Hfile Hs Ht Hv Hr)
    as (Hres & Hc & _).
  split; [exact Hres|]. split; [exact Hc|reflexivity].
Defined.

(** The example function can be uncompiled: of its flags [67] none is a
    future flag, so none is kept. *)
Lemma uncompile_result_witness :
  exists u,
    uncompile Demo.f_code = inr u /\
    u_flags u = 0 /\ u_firstlineno u = 10 /\
    parse_snippet_unc u = inr (Demo.module_of [Demo.def_f 10]).
Proof.
  assert (Hu : exists u, uncompile Demo.f_code = inr u)
    by (eexists; reflexivity).
  destruct Hu as [u Hu]. exists u. split; [exact Hu|].
  destruct (uncompile_result Demo.f_code u Hu)
    as (lines & l & Hs & -> & _ & Hp).
  injection Hs as <- <-. split; [reflexivity|]. split; [reflexivity|].
  rewrite Hp. reflexivity.
Defined.

(** A method that refers to [_Foo__bar] was compiled in a class [Foo]. *)
Lemma find_privateprefix_shape_witness :
  find_privateprefix ["rv"; "_Foo__bar"] = Some "_Foo" /\
  prefix_shape (chars "_Foo") /\
  exists nm rest,
    nm ∈ ["rv"; "_Foo__bar"]
    /\ chars nm = chars "_Foo" ++ [underscore; underscore] ++ rest.
Proof.
  assert (Hf : find_privateprefix ["rv"; "_Foo__bar"] = Some "_Foo")
    by reflexivity.
  split; [exact Hf|].
  exact (find_privateprefix_shape ["rv"; "_Foo__bar"] "_Foo" Hf).
Defined.

Lemma fixnames_idempotent_witness :
  find_privateprefix ["rv"; "_Foo__bar"] = Some "_Foo" /\
  fixnames "_Foo" (fixnames "_Foo" ["rv"; "__init__"; "__x"])
  = fixnames "_Foo" ["rv"; "__init__"; "__x"].
Proof.
  assert (Hf : find_privateprefix ["rv"; "_Foo__bar"] = Some "_Foo")
    by reflexivity.
  split; [exact Hf|].
  exact (fixnames_idempotent ["rv"; "_Foo__bar"]
           ["rv"; "__init__"; "__x"] "_Foo" Hf).
Defined.


Lemma recompile_result_named_witness :
  recompile (SrcText "def f(): pass") "model.py" "exec" 0 10 None
  = inr (Demo.body_code "f" "model.py" 10) /\
  exists a n0 c0 cb,
    source_tree (SrcText "def f(): pass") "model.py" "exec" 0 10 = inr a /\
    get_body_0 a = inr n0 /\
    isinstance_FunctionDef n0 = true /\
    compile_ast a "model.py" "exec" 0 true = inr c0 /\
    ConstCode cb ∈ co_consts c0 /\
    co_name cb = n_name n0 /\
    Demo.body_code "f" "model.py" 10 = cb.
Proof.
  assert (Hr : recompile (SrcText "def f(): pass") "model.py" "exec" 0 10
                         None
               = inr (Demo.body_code "f" "model.py" 10)) by reflexivity.
  split; [exact Hr|].
  destruct (recompile_result_named _ _ _ _ _ _ _ Hr)
    as (a & n0 & c0 & cb & Ha & Hb & Hi & Hc & Hin & Hn & _ & Heq).
  by exists a, n0, c0, cb.
Defined.

(** Two code objects named [f] on line 10: the first one is taken. *)
Lemma find_body_code_first_witness :
  co_name (Demo.body_code "f" "model.py" 10) = "f" /\
  co_firstlineno (Demo.body_code "f" "model.py" 10) = 10 /\
  find_body_code "f" (Some 10)
    ([ConstObject "f"; ConstCode (Demo.body_code "f" "model.py" 3)]
     ++ ConstCode (Demo.body_code "f" "model.py" 10)
     :: [ConstCode (Demo.body_code "f" "other.py" 10)])
  = inr (Demo.body_code "f" "model.py" 10).
Proof.
  split; [reflexivity|]. split; [reflexivity|].
  apply (find_body_code_first "f" 10
           [ConstObject "f"; ConstCode (Demo.body_code "f" "model.py" 3)]
           [ConstCode (Demo.body_code "f" "other.py" 10)]
           (Demo.body_code "f" "model.py" 10) eq_refl eq_refl).
  intros c' Hc [_ Hl].
  apply elem_of_cons in Hc as [Hc|Hc]; [discriminate Hc|].
  apply elem_of_cons in Hc as [Hc|Hc]; [|by apply elem_of_nil in Hc].
  injection Hc as ->. discriminate Hl.
Defined.

Lemma world1_dict :
  dicts Demo.world1 !! _observations Demo.model0 = Some ∅.
Proof. reflexivity. Qed.

Lemma observe_frame_witness :
  models Demo.world1 !! 0%nat = Some Demo.model0 /\
  dicts Demo.world1 !! _observations Demo.model0 = Some ∅ /\
  calls (observe 0%nat {[ "y" := 1 ]} Demo.world1).2 = calls Demo.world1 /\
  ambient (observe 0%nat {[ "y" := 1 ]} Demo.world1).2
  = ambient Demo.world1.
Proof.
  split; [exact world1_model|]. split; [exact world1_dict|].
  destruct (observe_frame Demo.world1 0%nat {[ "y" := 1 ]} Demo.model0 ∅
              world1_model world1_dict) as (Hc & Ha & _).
  split; [exact Hc|exact Ha].
Defined.

Lemma world1_observations : observations_of Demo.world1 0%nat = Some ∅.
Proof. reflexivity. Qed.

(** [observe(y=1)] and then [observe(y=2, z=3)] on the copy: the original
    reads [y=2, z=3] as well. *)
Lemma observe_accumulates_witness :
  observations_of Demo.world1 0%nat = Some ∅ /\
  exists c1 w1 c2 w2,
    observe 0%nat {[ "y" := 1 ]} Demo.world1 = (inr c1, w1) /\
    observe c1 (<[ "z" := 3 ]> {[ "y" := 2 ]}) w1 = (inr c2, w2) /\
    observations_of w2 0%nat
    = Some (<[ "z" := 3 ]> {[ "y" := 2 ]} ∪ ({[ "y" := 1 ]} ∪ ∅)).
Proof.
  split; [exact world1_observations|].
  destruct (observe_accumulates Demo.world1 0%nat {[ "y" := 1 ]}
              (<[ "z" := 3 ]> {[ "y" := 2 ]}) ∅ world1_observations)
    as (c1 & w1 & c2 & w2 & Ho1 & Ho2 & Hs & _).
  by exists c1, w1, c2, w2.
Defined.

Lemma observe_nothing_witness :
  models Demo.world1 !! 0%nat = Some Demo.model0 /\
  dicts Demo.world1 !! _observations Demo.model0 = Some ∅ /\
  dicts (observe 0%nat ∅ Demo.world1).2 = dicts Demo.world1.
Proof.
  split; [exact world1_model|]. split; [exact world1_dict|].
  by rewrite (observe_nothing Demo.world1 0%nat Demo.model0 ∅
                world1_model world1_dict).
Defined.

Lemma observe_keeps_results_witness :
  models Demo.world1 !! 0%nat = Some Demo.model0 /\
  dicts Demo.world1 !! _observations Demo.model0 = Some ∅ /\
  exists copy w',
    observe 0%nat {[ "a" := 7 ]} Demo.world1 = (inr copy, w') /\
    (make_log_prob_function copy [2; 5] w').1
    = (make_log_prob_function 0%nat [2; 5] Demo.world1).1.
Proof.
  split; [exact world1_model|]. split; [exact world1_dict|].
  destruct (observe_keeps_results Demo.world1 0%nat {[ "a" := 7 ]}
              Demo.model0 ∅ [2; 5] [] ∅ world1_model world1_dict)
    as (copy & w' & Ho & Hl & _).
  by exists copy, w'.
Defined.

Lemma world2_configure :
  exists w2, configure Demo.template [3] ∅ Demo.world1 = (inr 1%nat, w2).
Proof. eexists. reflexivity. Qed.

Lemma configured_models_keep_apart_witness :
  exists w2,
    configure Demo.template [] ∅ Demo.world0 = (inr 0%nat, Demo.world1) /\
    configure Demo.template [3] ∅ Demo.world1 = (inr 1%nat, w2) /\
    exists copy w3,
      observe 0%nat {[ "y" := 1 ]} w2 = (inr copy, w3) /\
      observations_of w3 0%nat = Some {[ "y" := 1 ]} /\
      observations_of w3 1%nat = Some ∅.
Proof.
  assert (Hc1 : configure Demo.template [] ∅ Demo.world0
                = (inr 0%nat, Demo.world1)) by reflexivity.
  destruct world2_configure as [w2 Hc2]. exists w2.
  split; [exact Hc1|]. split; [exact Hc2|].
  destruct (configured_models_keep_apart Demo.world0 Demo.world1 w2
              Demo.template Demo.template [] [3] ∅ ∅ {[ "y" := 1 ]}
              0%nat 1%nat Hc1 Hc2)
    as (copy & w3 & Ho & _ & _ & _ & H1 & H2).
  by exists copy, w3.
Defined.

(** The example template function registers variables and leaves the
    stack alone. *)
Lemma demo_register_stack (nm : string) (a : Ambient) :
  stack (Demo.register nm a) = stack a.
Proof.
  unfold Demo.register. destruct (stack a) as [|top st] eqn:Hs; [done|].
  destruct (contexts a !! top) as [[vs|vs pv ev]|]; by cbn.
Qed.

Lemma demo_keeps_stack : keeps_stack.
Proof.
  intros c args kwargs a. cbn. generalize (co_varnames c). intros names.
  revert a. induction names as [|nm names IH]; intros a; [done|].
  cbn [fold_left]. by rewrite IH, demo_register_stack.
Qed.

Lemma contexts_are_scoped_witness :
  keeps_stack /\
  stack (ambient (configure Demo.template [] ∅ Demo.world0).2)
  = stack (ambient Demo.world0) /\
  stack (ambient (make_log_prob_function 0%nat [2; 5] Demo.world1).2)
  = stack (ambient Demo.world1).
Proof.
  split; [exact demo_keeps_stack|].
  split.
  - destruct (contexts_are_scoped Demo.world0 demo_keeps_stack) as (Hc & _).
    apply Hc.
  - destruct (contexts_are_scoped Demo.world1 demo_keeps_stack)
      as (_ & Hl & _).
    apply Hl.
Defined.

Lemma configure_then_forward_sample_witness :
  functions Demo.world0 !! _func Demo.template = Some Demo.f_code /\
  exists m w',
    configure Demo.template [] ∅ Demo.world0 = (inr m, w') /\
    forward_sample m [] ∅ w' = (inr (samples_of (vars Demo.forward0)), w').
Proof.
  assert (Hf : functions Demo.world0 !! _func Demo.template
               = Some Demo.f_code) by reflexivity.
  split; [exact Hf|].
  edestruct (configure_then_forward_sample Demo.world0 Demo.template [] ∅
               Demo.f_code Demo.forward0 Hf)
    as (m & w' & Hc & Hs); [reflexivity|reflexivity|].
  exists m, w'. split; [exact Hc|apply Hs].
Defined.

Lemma decorated_template_runs_witness :
  functions Demo.world0 !! 0%nat = Some Demo.f_code /\
  auto_name_code Demo.f_code = inr (Demo.body_code "f" "model.py" 10) /\
  (call_code
     <$> calls (configure {| _func := 0%nat |} [] ∅
                  (model true 0%nat Demo.world0).2).2)
  = [Demo.body_code "f" "model.py" 10].
Proof.
  assert (Hf : functions Demo.world0 !! 0%nat = Some Demo.f_code)
    by reflexivity.
  assert (Hp : auto_name_code Demo.f_code
               = inr (Demo.body_code "f" "model.py" 10)) by reflexivity.
  split; [exact Hf|]. split; [exact Hp|].
  destruct (decorated_template_runs Demo.world0 0%nat Demo.f_code
              (Demo.body_code "f" "model.py" 10) [] ∅ Hf Hp) as (Ht & _).
  exact Ht.
Defined.

(** A function whose file ends in the middle of a statement: the error of
    the tokenizer is no [IOError] and comes out of [uncompile] as it is;
    a function whose file is gone gets [NoSource]. *)
Lemma uncompile_returns_iff_witness :
  getsourcelines Demo.torn_code = inl (PyException "tokenize.TokenError") /\
  uncompile Demo.torn_code = inl (PyException "tokenize.TokenError") /\
  is_Error (PyException "tokenize.TokenError") = false /\
  uncompile Demo.lost_code = inl (NoSource "source code not available").
Proof.
  assert (Hs : getsourcelines Demo.torn_code
               = inl (PyException "tokenize.TokenError")) by reflexivity.
  split; [exact Hs|].
  destruct (uncompile_returns_iff Demo.torn_code) as (_ & _ & Hraise).
  split; [|by split].
  apply Hraise; [| | |exact Hs|reflexivity].
  - intros [Hx|Hx]; by apply Hx.
  - intros Hx. discriminate Hx.
  - intros Hx. discriminate Hx.
Defined.
